(** * Credit-Management backend: a shallow embedding of [backend/server.py]

    The service is a thin layer over two document collections
    ([db.customers], [db.credit_entries]) plus one derived computation,
    [update_customer_totals].  Collections are lists in natural (insertion)
    order; every handler is a computation in a small state-and-exception
    monad over the pair of collections, so that what a handler leaves in the
    store when it raises is part of its meaning. *)

From Stdlib Require Import List String DecimalString ZArith Lia Bool Arith.
From Stdlib Require Import Sorted Permutation.
Import ListNotations.

Local Open Scope string_scope.

(** ** Amounts

    [amount], [paid_amount] and the three cached totals are Python [float]s.
    Only three things are ever done with them: the literal zero, addition
    (inside [sum]) and one subtraction.  The development is generic in the
    carrier and assumes a single law, which holds for machine floats, for
    integers and for exact decimals alike. *)

Class Amount (num : Type) : Type := {
  zero : num;
  add : num -> num -> num;
  sub : num -> num -> num;
  sub_zero_zero : sub zero zero = zero
}.

#[export] Instance Amount_Z : Amount Z := {
  zero := 0%Z;
  add := Z.add;
  sub := Z.sub;
  sub_zero_zero := eq_refl
}.

(** [datetime] values are only stored, copied and compared for sorting.
    (The store keeps them to the millisecond; the model keeps them as they
    are.) *)
Definition datetime : Type := Z.

(** ** Collections: the pymongo/motor calls the handlers use *)

Module Collection.

(** [find_one(q)]: the first document matching [q]. *)
Definition find_one {A} (q : A -> bool) (docs : list A) : option A :=
  List.find q docs.

(** [find(q)]: the cursor over the matching documents, in natural order. *)
Definition find {A} (q : A -> bool) (docs : list A) : list A :=
  List.filter q docs.

(** [cursor.to_list(n)]: at most [n] documents of the cursor. *)
Definition to_list {A} (n : nat) (cursor : list A) : list A :=
  List.firstn n cursor.

(** [insert_one(d)]. *)
Definition insert_one {A} (d : A) (docs : list A) : list A :=
  docs ++ [d].

(** [update_one(q, {"$set": ...})]: the first match is updated in place,
    nothing happens when there is none. *)
Fixpoint update_one {A} (q : A -> bool) (set : A -> A) (docs : list A)
  : list A :=
  match docs with
  | [] => []
  | d :: rest =>
      if q d then set d :: rest else d :: update_one q set rest
  end.

(** [delete_one(q)]: the first match is removed; the result carries
    [deleted_count]. *)
Fixpoint delete_one {A} (q : A -> bool) (docs : list A) : nat * list A :=
  match docs with
  | [] => (0, [])
  | d :: rest =>
      if q d then (1, rest)
      else let (n, rest') := delete_one q rest in (n, d :: rest')
  end.

(** [delete_many(q)]. *)
Definition delete_many {A} (q : A -> bool) (docs : list A) : list A :=
  List.filter (fun d => negb (q d)) docs.

(** [count_documents({})]. *)
Definition count_documents {A} (docs : list A) : nat := List.length docs.

(** [cursor.sort(key, -1)]: descending by [key]; documents with equal keys
    keep their relative order. *)
Fixpoint insert_desc {A} (key : A -> Z) (d : A) (sorted : list A)
  : list A :=
  match sorted with
  | [] => [d]
  | d' :: rest =>
      if (key d' <=? key d)%Z then d :: sorted
      else d' :: insert_desc key d rest
  end.

Definition sort_desc {A} (key : A -> Z) (cursor : list A) : list A :=
  List.fold_right (insert_desc key) [] cursor.

End Collection.

(** ** Errors *)

(** [HTTPException(status_code, detail)] is what the handlers raise;
    [RequestValidationError] is what the framework answers (status 422) when
    a request body does not fit the declared model; [InternalError] stands
    for an uncaught Python exception (status 500). *)
Inductive error : Type :=
| HTTPException (status_code : Z) (detail : string)
| RequestValidationError (field : string)
| InternalError.

Definition status (e : error) : Z :=
  match e with
  | HTTPException code _ => code
  | RequestValidationError _ => 422%Z
  | InternalError => 500%Z
  end.

Definition NotFound (e : error) : Prop := status e = 404%Z.
Definition ValidationError (e : error) : Prop := status e = 422%Z.

Section Model.

Context {num : Type} `{Amount num}.

(** ** Data models (the pydantic classes) *)

Record Customer : Type := mkCustomer {
  c_id : string;
  name : string;
  phone : option string;
  address : option string;
  c_created_at : datetime;
  total_credit : num;
  total_paid : num;
  outstanding_balance : num
}.

Record CustomerCreate : Type := mkCustomerCreate {
  cc_name : string;
  cc_phone : option string;
  cc_address : option string
}.

Record CreditEntry : Type := mkCreditEntry {
  e_id : string;
  customer_id : string;
  amount : num;
  description : option string;
  date : datetime;
  image_data : option string;
  is_paid : bool;
  paid_amount : num;
  e_created_at : datetime
}.

Record CreditEntryCreate : Type := mkCreditEntryCreate {
  ec_customer_id : string;
  ec_amount : num;
  ec_description : option string;
  ec_date : datetime;
  ec_image_data : option string
}.

(** Every field of [CreditEntryUpdate] is [Optional] with default [None]. *)
Record CreditEntryUpdate : Type := mkCreditEntryUpdate {
  eu_amount : option num;
  eu_description : option string;
  eu_date : option datetime;
  eu_is_paid : option bool;
  eu_paid_amount : option num
}.

Record PaymentUpdate : Type := mkPaymentUpdate {
  pu_is_paid : bool;
  pu_paid_amount : num
}.

(** The JSON body of a customer request before validation: a key that is
    absent (or [null]) is [None]. *)
Record CustomerBody : Type := mkCustomerBody {
  body_name : option string;
  body_phone : option string;
  body_address : option string
}.

(** [CustomerCreate] declares [name: str] with no default, so the key is
    required; it puts no constraint on the string itself.  [phone] and
    [address] default to [None]. *)
Definition validate_CustomerCreate (b : CustomerBody)
  : error + CustomerCreate :=
  match body_name b with
  | None => inl (RequestValidationError "name")
  | Some n => inr (mkCustomerCreate n (body_phone b) (body_address b))
  end.

(** What [Field(default_factory=...)] draws when a record is built:
    [uuid.uuid4()] and [datetime.utcnow()]. *)
Record fresh : Type := mkFresh {
  uuid4 : string;
  utcnow : datetime
}.

(** ** The store and the handler monad *)

Record db : Type := mkDb {
  customers : list Customer;
  credit_entries : list CreditEntry
}.

Definition empty_db : db := mkDb [] [].

(** A handler runs on the store and either returns or raises; the store it
    leaves behind is kept in both cases. *)
Definition M (A : Type) : Type := db -> (error + A) * db.

Definition ret {A} (a : A) : M A := fun s => (inr a, s).

Definition bind {A B} (m : M A) (k : A -> M B) : M B :=
  fun s =>
    match m s with
    | (inl e, s') => (inl e, s')
    | (inr a, s') => k a s'
    end.

Definition raise {A} (e : error) : M A := fun s => (inl e, s).

Definition read_customers {A} (f : list Customer -> A) : M A :=
  fun s => (inr (f (customers s)), s).

Definition read_entries {A} (f : list CreditEntry -> A) : M A :=
  fun s => (inr (f (credit_entries s)), s).

Definition write_customers (f : list Customer -> list Customer) : M unit :=
  fun s => (inr tt, mkDb (f (customers s)) (credit_entries s)).

Definition write_entries (f : list CreditEntry -> list CreditEntry)
  : M unit :=
  fun s => (inr tt, mkDb (customers s) (f (credit_entries s))).

End Model.

Arguments Customer num : clear implicits.
Arguments CustomerCreate : clear implicits.
Arguments CreditEntry num : clear implicits.
Arguments CreditEntryCreate num : clear implicits.
Arguments CreditEntryUpdate num : clear implicits.
Arguments PaymentUpdate num : clear implicits.
Arguments db num : clear implicits.
Arguments M num A : clear implicits.

Declare Scope handler_scope.
Delimit Scope handler_scope with handler.
Notation "x <- m ;; k" := (bind m (fun x => k))
  (at level 61, m at next level, right associativity) : handler_scope.
Notation "m ;; k" := (bind m (fun _ => k))
  (at level 61, right associativity) : handler_scope.

(** ** The handlers of [server.py] *)

Section Handlers.

Context {num : Type} `{Amount num}.

Local Open Scope handler_scope.

(** The fixed length every [to_list] call passes. *)
Definition fetch_cap : nat := 1000.

(** Python's [sum]: from the start value, left to right. *)
Definition py_sum (xs : list num) : num := List.fold_left add xs zero.

(** The three query documents the handlers use. *)
Definition customer_with_id (id : string) (c : Customer num) : bool :=
  String.eqb (c_id c) id.

Definition entry_with_id (id : string) (e : CreditEntry num) : bool :=
  String.eqb (e_id e) id.

Definition entry_of_customer (cid : string) (e : CreditEntry num) : bool :=
  String.eqb (customer_id e) cid.

Definition delete_one_customer (q : Customer num -> bool) : M num nat :=
  fun s =>
    let (n, rest) := Collection.delete_one q (customers s) in
    (inr n, mkDb rest (credit_entries s)).

Definition delete_one_entry (q : CreditEntry num -> bool) : M num nat :=
  fun s =>
    let (n, rest) := Collection.delete_one q (credit_entries s) in
    (inr n, mkDb (customers s) rest).

(** [{"$set": {"total_credit": .., "total_paid": ..,
    "outstanding_balance": ..}}] *)
Definition set_totals (tc tp ob : num) (c : Customer num) : Customer num :=
  mkCustomer (c_id c) (name c) (phone c) (address c) (c_created_at c)
             tc tp ob.

(** [{"$set": customer_update.dict()}] *)
Definition set_contact (u : CustomerCreate) (c : Customer num)
  : Customer num :=
  mkCustomer (c_id c) (cc_name u) (cc_phone u) (cc_address u)
             (c_created_at c)
             (total_credit c) (total_paid c) (outstanding_balance c).

(** [{"$set": update_data}] where [update_data] keeps the items of
    [entry_update.dict()] whose value is not [None].  (When every field is
    [None] the [$set] document is empty and the entry is left as it is.) *)
Definition set_update_data (u : CreditEntryUpdate num) (e : CreditEntry num)
  : CreditEntry num :=
  mkCreditEntry
    (e_id e) (customer_id e)
    (match eu_amount u with Some v => v | None => amount e end)
    (match eu_description u with Some v => Some v | None => description e end)
    (match eu_date u with Some v => v | None => date e end)
    (image_data e)
    (match eu_is_paid u with Some v => v | None => is_paid e end)
    (match eu_paid_amount u with Some v => v | None => paid_amount e end)
    (e_created_at e).

(** [{"$set": {"is_paid": .., "paid_amount": ..}}] *)
Definition set_payment (p : PaymentUpdate num) (e : CreditEntry num)
  : CreditEntry num :=
  mkCreditEntry (e_id e) (customer_id e) (amount e) (description e) (date e)
                (image_data e) (pu_is_paid p) (pu_paid_amount p)
                (e_created_at e).

(** *** Helper: [update_customer_totals] *)

Definition update_customer_totals (cid : string) : M num unit :=
  entries <- read_entries
               (fun es => Collection.to_list fetch_cap
                            (Collection.find (entry_of_customer cid) es)) ;;
  let total_credit := py_sum (List.map amount entries) in
  let total_paid := py_sum (List.map paid_amount entries) in
  let outstanding_balance := sub total_credit total_paid in
  write_customers
    (Collection.update_one (customer_with_id cid)
       (set_totals total_credit total_paid outstanding_balance)).

(** *** Customer routes *)

Definition create_customer (g : fresh) (customer : CustomerCreate)
  : M num (Customer num) :=
  let customer_obj :=
    mkCustomer (uuid4 g) (cc_name customer) (cc_phone customer)
               (cc_address customer) (utcnow g) zero zero zero in
  write_customers (Collection.insert_one customer_obj) ;;
  ret customer_obj.

Definition get_customers : M num (list (Customer num)) :=
  read_customers
    (fun cs => Collection.to_list fetch_cap
                 (Collection.sort_desc c_created_at cs)).

Definition get_customer (id : string) : M num (Customer num) :=
  customer <- read_customers (Collection.find_one (customer_with_id id)) ;;
  match customer with
  | None => raise (HTTPException 404 "Customer not found")
  | Some c => ret c
  end.

Definition update_customer (id : string) (customer_update : CustomerCreate)
  : M num (Customer num) :=
  customer <- read_customers (Collection.find_one (customer_with_id id)) ;;
  match customer with
  | None => raise (HTTPException 404 "Customer not found")
  | Some _ =>
      write_customers
        (Collection.update_one (customer_with_id id)
           (set_contact customer_update)) ;;
      updated_customer <-
        read_customers (Collection.find_one (customer_with_id id)) ;;
      match updated_customer with
      | Some c => ret c
      | None => raise InternalError
      end
  end.

Definition delete_customer (id : string) : M num string :=
  deleted_count <- delete_one_customer (customer_with_id id) ;;
  if Nat.eqb deleted_count 0
  then raise (HTTPException 404 "Customer not found")
  else
    write_entries (Collection.delete_many (entry_of_customer id)) ;;
    ret "Customer deleted successfully".

(** *** Credit entry routes *)

Definition create_credit_entry (g : fresh) (entry : CreditEntryCreate num)
  : M num (CreditEntry num) :=
  customer <- read_customers
                (Collection.find_one
                   (customer_with_id (ec_customer_id entry))) ;;
  match customer with
  | None => raise (HTTPException 404 "Customer not found")
  | Some _ =>
      let entry_obj :=
        mkCreditEntry (uuid4 g) (ec_customer_id entry) (ec_amount entry)
                      (ec_description entry) (ec_date entry)
                      (ec_image_data entry) false zero (utcnow g) in
      write_entries (Collection.insert_one entry_obj) ;;
      update_customer_totals (ec_customer_id entry) ;;
      ret entry_obj
  end.

Definition get_credit_entries (cid : string)
  : M num (list (CreditEntry num)) :=
  read_entries
    (fun es => Collection.to_list fetch_cap
                 (Collection.sort_desc date
                    (Collection.find (entry_of_customer cid) es))).

Definition update_credit_entry (id : string)
           (entry_update : CreditEntryUpdate num)
  : M num (CreditEntry num) :=
  entry <- read_entries (Collection.find_one (entry_with_id id)) ;;
  match entry with
  | None => raise (HTTPException 404 "Credit entry not found")
  | Some entry =>
      write_entries
        (Collection.update_one (entry_with_id id)
           (set_update_data entry_update)) ;;
      updated_entry <-
        read_entries (Collection.find_one (entry_with_id id)) ;;
      update_customer_totals (customer_id entry) ;;
      match updated_entry with
      | Some e => ret e
      | None => raise InternalError
      end
  end.

Definition update_payment_status (id : string) (payment : PaymentUpdate num)
  : M num (CreditEntry num) :=
  entry <- read_entries (Collection.find_one (entry_with_id id)) ;;
  match entry with
  | None => raise (HTTPException 404 "Credit entry not found")
  | Some entry =>
      write_entries
        (Collection.update_one (entry_with_id id) (set_payment payment)) ;;
      updated_entry <-
        read_entries (Collection.find_one (entry_with_id id)) ;;
      update_customer_totals (customer_id entry) ;;
      match updated_entry with
      | Some e => ret e
      | None => raise InternalError
      end
  end.

Definition delete_credit_entry (id : string) : M num string :=
  entry <- read_entries (Collection.find_one (entry_with_id id)) ;;
  match entry with
  | None => raise (HTTPException 404 "Credit entry not found")
  | Some entry =>
      let cid := customer_id entry in
      deleted_count <- delete_one_entry (entry_with_id id) ;;
      if Nat.eqb deleted_count 0
      then raise (HTTPException 404 "Credit entry not found")
      else
        update_customer_totals cid ;;
        ret "Credit entry deleted successfully"
  end.

(** *** Dashboard stats *)

Record Stats : Type := mkStats {
  total_customers : nat;
  total_credit_entries : nat;
  stats_total_outstanding : num;
  stats_total_credit : num;
  stats_total_paid : num
}.

Definition get_dashboard_stats : M num Stats :=
  total_customers <- read_customers Collection.count_documents ;;
  total_credit_entries <- read_entries Collection.count_documents ;;
  customers <- read_customers (Collection.to_list fetch_cap) ;;
  let total_outstanding := py_sum (List.map outstanding_balance customers) in
  let total_credit := py_sum (List.map total_credit customers) in
  let total_paid := py_sum (List.map total_paid customers) in
  ret (mkStats total_customers total_credit_entries
               total_outstanding total_credit total_paid).

(** *** The routes, with the request validation the framework performs
    before a handler body runs *)

Definition post_customers (g : fresh) (body : CustomerBody)
  : M num (Customer num) :=
  match validate_CustomerCreate body with
  | inl e => raise e
  | inr customer => create_customer g customer
  end.

Definition put_customer (id : string) (body : CustomerBody)
  : M num (Customer num) :=
  match validate_CustomerCreate body with
  | inl e => raise e
  | inr customer_update => update_customer id customer_update
  end.

Inductive request : Type :=
| POST_customers (g : fresh) (body : CustomerBody)
| GET_customers
| GET_customer (id : string)
| PUT_customer (id : string) (body : CustomerBody)
| DELETE_customer (id : string)
| POST_credit_entries (g : fresh) (entry : CreditEntryCreate num)
| GET_credit_entries (cid : string)
| PUT_credit_entry (id : string) (entry_update : CreditEntryUpdate num)
| PATCH_payment (id : string) (payment : PaymentUpdate num)
| DELETE_credit_entry (id : string)
| GET_dashboard_stats.

Inductive response : Type :=
| CustomerR (c : Customer num)
| CustomersR (cs : list (Customer num))
| EntryR (e : CreditEntry num)
| EntriesR (es : list (CreditEntry num))
| MessageR (message : string)
| StatsR (st : Stats).

Definition fmap {A B} (f : A -> B) (m : M num A) : M num B :=
  a <- m ;; ret (f a).

Definition handle (r : request) : M num response :=
  match r with
  | POST_customers g body => fmap CustomerR (post_customers g body)
  | GET_customers => fmap CustomersR get_customers
  | GET_customer id => fmap CustomerR (get_customer id)
  | PUT_customer id body => fmap CustomerR (put_customer id body)
  | DELETE_customer id => fmap MessageR (delete_customer id)
  | POST_credit_entries g entry => fmap EntryR (create_credit_entry g entry)
  | GET_credit_entries cid => fmap EntriesR (get_credit_entries cid)
  | PUT_credit_entry id u => fmap EntryR (update_credit_entry id u)
  | PATCH_payment id p => fmap EntryR (update_payment_status id p)
  | DELETE_credit_entry id => fmap MessageR (delete_credit_entry id)
  | GET_dashboard_stats => fmap StatsR get_dashboard_stats
  end.

(** The store after a sequence of requests, oldest first. *)
Definition run (rs : list request) (s : db num) : db num :=
  List.fold_left (fun s r => snd (handle r s)) rs s.

(** The four requests that mutate a credit entry, and the customer whose
    totals each recomputes: the owner of the entry it finds (for a
    creation, the customer named in the body). *)
Definition entry_mutation_owner (r : request) (s : db num) : option string :=
  match r with
  | POST_credit_entries _ entry => Some (ec_customer_id entry)
  | PUT_credit_entry id _ | PATCH_payment id _ | DELETE_credit_entry id =>
      option_map customer_id
        (Collection.find_one (entry_with_id id) (credit_entries s))
  | _ => None
  end.

(** The entries a customer owns, in store order. *)
Definition entries_of (cid : string) (s : db num) : list (CreditEntry num) :=
  List.filter (entry_of_customer cid) (credit_entries s).

(** What [update_customer_totals] reads: the customer's entries up to the
    fetch cap. *)
Definition fetched_entries (cid : string) (s : db num)
  : list (CreditEntry num) :=
  List.firstn fetch_cap (entries_of cid s).

(** The customer record with the totals recomputed from store [s]. *)
Definition recalculated (cid : string) (s : db num) (c : Customer num)
  : Customer num :=
  let tc := py_sum (List.map amount (fetched_entries cid s)) in
  let tp := py_sum (List.map paid_amount (fetched_entries cid s)) in
  set_totals tc tp (sub tc tp) c.

(** The relation the data model states between the three cached totals. *)
Definition balanced (c : Customer num) : Prop :=
  outstanding_balance c = sub (total_credit c) (total_paid c).

Definition all_balanced (s : db num) : Prop :=
  forall c, In c (customers s) -> balanced c.

(** The three cached totals of a customer record. *)
Definition totals (c : Customer num) : num * num * num :=
  (total_credit c, total_paid c, outstanding_balance c).

(** Customer ids are drawn by [uuid4]; the store is well formed when no two
    customers share one. *)
Definition distinct_customer_ids (s : db num) : Prop :=
  List.NoDup (List.map c_id (customers s)).

(** [uuid4] never draws an id that is already in use: the one assumption
    made on the generator, needed only by a customer creation. *)
Definition draws_fresh_id (r : request) (s : db num) : Prop :=
  match r with
  | POST_customers g _ => ~ In (uuid4 g) (List.map c_id (customers s))
  | _ => True
  end.

(** What a partial update owes one field: the supplied value, or the
    prior one when none is supplied. *)
Definition patched {A : Type} (supplied : option A) (old new : A) : Prop :=
  match supplied with
  | Some v => new = v
  | None => new = old
  end.

(** The record of a customer whose three totals are zero. *)
Definition zero_totals (c : Customer num) : Prop :=
  total_credit c = zero /\ total_paid c = zero /\
  outstanding_balance c = zero.

(** The fields of a customer that are not totals. *)
Definition same_identity (c c' : Customer num) : Prop :=
  c_id c' = c_id c /\ name c' = name c /\ phone c' = phone c /\
  address c' = address c /\ c_created_at c' = c_created_at c.

End Handlers.

(** The cap is a constant of the program; proofs never need its digits. *)
Opaque fetch_cap.

(** ** Sample stores, over integer amounts *)

Module Sample.

(** A generated identifier: a prefix followed by a decimal counter. *)
Definition ident (prefix : string) (n : nat) : string :=
  prefix ++ NilEmpty.string_of_uint (Nat.to_uint n).

Definition rajesh : CustomerBody :=
  mkCustomerBody (Some "Rajesh Kumar") (Some "9876543210")
                 (Some "123 Main Street, Delhi").

Definition grocery (cid : string) : CreditEntryCreate Z :=
  mkCreditEntryCreate cid 5000%Z (Some "Grocery supplies") 20%Z None.

Definition hardware (cid : string) : CreditEntryCreate Z :=
  mkCreditEntryCreate cid 2500%Z (Some "Hardware items") 30%Z None.

(** The scenario of the test script: one customer, two entries. *)
Definition two_entries : db Z :=
  run [ POST_customers (mkFresh "c1" 10%Z) rajesh;
        POST_credit_entries (mkFresh "e1" 21%Z) (grocery "c1");
        POST_credit_entries (mkFresh "e2" 31%Z) (hardware "c1") ]
      empty_db.

(** The creation of the [n]-th entry of amount 1 for customer ["c1"]. *)
Definition unit_entry (n : nat) : request (num := Z) :=
  POST_credit_entries (mkFresh (ident "e" n) (Z.of_nat n))
    (mkCreditEntryCreate "c1" 1%Z None (Z.of_nat n) None).

(** One customer, then [n] entries of amount 1 for that customer. *)
Definition many_entries (n : nat) : db Z :=
  run (POST_customers (mkFresh "c1" 0%Z) rajesh
         :: List.map unit_entry (List.seq 1 n))
      empty_db.

(** The creation of the [n]-th customer and of its one entry of amount 1. *)
Definition customer_with_unit_entry (n : nat) : list (request (num := Z)) :=
  [ POST_customers (mkFresh (ident "c" n) (Z.of_nat n))
      (mkCustomerBody (Some (ident "customer " n)) None None);
    POST_credit_entries (mkFresh (ident "e" n) (Z.of_nat n))
      (mkCreditEntryCreate (ident "c" n) 1%Z None (Z.of_nat n) None) ].

(** [n] customers, each with one entry of amount 1. *)
Definition many_customers (n : nat) : db Z :=
  run (List.flat_map customer_with_unit_entry (List.seq 1 n)) empty_db.

End Sample.

(** ** Store invariants and orderings *)

Section Invariants.

Context {num : Type} `{Amount num}.


(** Referential integrity: every entry names a customer that is stored. *)
Definition no_orphans (s : db num) : Prop :=
  forall e, In e (credit_entries s) ->
            In (customer_id e) (List.map c_id (customers s)).

(** Cache coherence: the totals cached on every customer record are the
    ones a recalculation would write now. *)
Definition coherent (s : db num) : Prop :=
  forall c, In c (customers s) ->
            totals c = totals (recalculated (c_id c) s c).

Definition well_formed (s : db num) : Prop :=
  distinct_customer_ids s /\ no_orphans s /\ coherent s.

Definition distinct_entry_ids (s : db num) : Prop :=
  List.NoDup (List.map e_id (credit_entries s)).

(** The assumption on [uuid4] for an entry creation. *)
Definition draws_fresh_entry_id (r : @request num) (s : db num) : Prop :=
  match r with
  | POST_credit_entries g _ =>
      ~ In (uuid4 g) (List.map e_id (credit_entries s))
  | _ => True
  end.

(** A sequence of requests in which every customer creation draws an id
    that is fresh at the moment it is handled. *)
Fixpoint fresh_run (rs : list (@request num)) (s : db num) : Prop :=
  match rs with
  | [] => True
  | r :: rs' => draws_fresh_id r s /\ fresh_run rs' (snd (handle r s))
  end.

(** The fields of an entry that no route can change once it is stored. *)
Definition entry_key (e : CreditEntry num)
  : string * string * option string * datetime :=
  (e_id e, customer_id e, image_data e, e_created_at e).

(** The store an in-place update of entry [id] by [set] leaves once the
    totals of customer [cid] are recalculated. *)
Definition after_entry_update
           (id : string) (set : CreditEntry num -> CreditEntry num)
           (cid : string) (s : db num) : db num :=
  snd (update_customer_totals cid
         (mkDb (customers s)
               (Collection.update_one (entry_with_id id) set
                  (credit_entries s)))).

(** The number of entries each customer owns, summed over the customers. *)
Definition entries_across_customers (s : db num) : nat :=
  List.list_sum
    (List.map (fun c => List.length (entries_of (c_id c) s)) (customers s)).

(** What an entry mutation owes the owner [cid] of the entry, between the
    store [s] before and the store [s'] after: when a customer with that id
    is stored, [GetById] finds it afterwards with its non-total fields
    intact, [total_credit] and [total_paid] the sums of [amount] and
    [paid_amount] over the first [fetch_cap] entries it owns in [s'], and
    [outstanding_balance] their difference; when none is stored, none is
    afterwards. *)
Definition owner_recalculated (cid : string) (s s' : db num) : Prop :=
  match Collection.find_one (customer_with_id cid) (customers s) with
  | Some c0 =>
      exists c',
        Collection.find_one (customer_with_id cid) (customers s') = Some c' /\
        total_credit c'
        = py_sum (List.map amount (fetched_entries cid s')) /\
        total_paid c'
        = py_sum (List.map paid_amount (fetched_entries cid s')) /\
        outstanding_balance c'
        = sub (py_sum (List.map amount (fetched_entries cid s')))
              (py_sum (List.map paid_amount (fetched_entries cid s'))) /\
        same_identity c0 c'
  | None =>
      Collection.find_one (customer_with_id cid) (customers s') = None
  end.

End Invariants.

(** ** Rendering the answer

    [handle] ends where the handler body returns.  The framework then
    encodes the returned value as JSON, and its encoder refuses a float
    that is not finite: the route answers 500, after whatever the handler
    wrote.  [finite] tells which amounts the encoder accepts. *)

Section Rendering.

Context {num : Type} `{Amount num}.

Variable finite : num -> bool.

Definition customer_renders (c : Customer num) : bool :=
  finite (total_credit c) && finite (total_paid c)
  && finite (outstanding_balance c).

Definition entry_renders (e : CreditEntry num) : bool :=
  finite (amount e) && finite (paid_amount e).

Definition renders (resp : @response num) : bool :=
  match resp with
  | CustomerR c => customer_renders c
  | CustomersR cs => List.forallb customer_renders cs
  | EntryR e => entry_renders e
  | EntriesR es => List.forallb entry_renders es
  | MessageR _ => true
  | StatsR st =>
      finite (stats_total_outstanding st) && finite (stats_total_credit st)
      && finite (stats_total_paid st)
  end.

(** A route: the handler, then the rendering of what it returned. *)
Definition route (r : @request num) : M num (@response num) :=
  fun s =>
    match handle r s with
    | (inr resp, s') =>
        if renders resp then (inr resp, s') else (inl InternalError, s')
    | (inl err, s') => (inl err, s')
    end.

End Rendering.

(** * Facts about the collection operations *)

Section CollectionFacts.

Context {A : Type}.
Implicit Types (q p : A -> bool) (docs : list A).

Lemma update_one_length q (set : A -> A) docs :
  List.length (Collection.update_one q set docs) = List.length docs.
Proof.
  induction docs as [|d rest IH]; simpl; [reflexivity|].
  destruct (q d); simpl; congruence.
Qed.

(** Reading back the document an update touched, when the update does not
    move it out of the query. *)
Lemma find_one_update_one q (set : A -> A) docs :
  (forall d, q d = true -> q (set d) = true) ->
  Collection.find_one q (Collection.update_one q set docs)
  = option_map set (Collection.find_one q docs).
Proof.
  intros Hq. unfold Collection.find_one.
  induction docs as [|d rest IH]; simpl; [reflexivity|].
  destruct (q d) eqn:E; simpl.
  - now rewrite (Hq d E).
  - now rewrite E.
Qed.

Lemma update_one_idempotent q (set : A -> A) docs :
  (forall d, q d = true -> q (set d) = true) ->
  (forall d, set (set d) = set d) ->
  Collection.update_one q set (Collection.update_one q set docs)
  = Collection.update_one q set docs.
Proof.
  intros Hq Hs.
  induction docs as [|d rest IH]; simpl; [reflexivity|].
  destruct (q d) eqn:E; simpl.
  - now rewrite (Hq d E), Hs.
  - now rewrite E, IH.
Qed.

(** A document of the updated collection is an old one, or the image of an
    old one that matched. *)
Lemma in_update_one q (set : A -> A) docs x :
  In x (Collection.update_one q set docs) ->
  In x docs \/ exists d, In d docs /\ q d = true /\ x = set d.
Proof.
  induction docs as [|d rest IH]; simpl; [tauto|].
  destruct (q d) eqn:E; simpl.
  - intros [<-|Hin]; [right; exists d; auto | left; auto].
  - intros [<-|Hin]; [left; auto|].
    destruct (IH Hin) as [?|(d0 & ? & ? & ?)]; [left; auto|].
    right; exists d0; auto.
Qed.

(** Documents outside the query are neither added nor removed. *)
Lemma in_update_one_other q (set : A -> A) docs x :
  (forall d, q d = true -> q (set d) = true) ->
  q x = false ->
  In x (Collection.update_one q set docs) <-> In x docs.
Proof.
  intros Hq Hx.
  induction docs as [|d rest IH]; simpl; [tauto|].
  destruct (q d) eqn:E; simpl; [|tauto].
  split; intros [Heq|Hin]; auto; right.
  - subst x. rewrite (Hq d E) in Hx. discriminate.
  - subst x. congruence.
Qed.

Lemma update_one_map {B} (key : A -> B) q (set : A -> A) docs :
  (forall d, key (set d) = key d) ->
  List.map key (Collection.update_one q set docs) = List.map key docs.
Proof.
  intros Hk.
  induction docs as [|d rest IH]; simpl; [reflexivity|].
  destruct (q d); simpl; now rewrite ?Hk, ?IH.
Qed.

Lemma delete_one_no_match q docs :
  Collection.find_one q docs = None ->
  Collection.delete_one q docs = (0, docs).
Proof.
  unfold Collection.find_one.
  induction docs as [|d rest IH]; simpl; [reflexivity|].
  destruct (q d); [discriminate|]. intros Hn. now rewrite (IH Hn).
Qed.

Lemma delete_one_match q docs d :
  Collection.find_one q docs = Some d ->
  fst (Collection.delete_one q docs) = 1 /\
  S (List.length (snd (Collection.delete_one q docs))) = List.length docs.
Proof.
  unfold Collection.find_one.
  induction docs as [|d0 rest IH]; simpl; [discriminate|].
  destruct (q d0); [auto|]. intros Hf.
  destruct (IH Hf) as [H1 H2].
  destruct (Collection.delete_one q rest) as [n rest']; simpl in *.
  split; congruence.
Qed.

Lemma in_delete_one q docs x :
  In x (snd (Collection.delete_one q docs)) -> In x docs.
Proof.
  induction docs as [|d rest IH]; simpl; [tauto|].
  destruct (q d); simpl; [auto|].
  destruct (Collection.delete_one q rest) as [n rest']; simpl in *.
  intros [?|?]; auto.
Qed.

(** When the only document [p] selects is the one [delete_one] removes,
    [p] selects nothing afterwards. *)
Lemma filter_delete_one_last q p docs d :
  Collection.find_one q docs = Some d ->
  List.filter p docs = [d] ->
  List.filter p (snd (Collection.delete_one q docs)) = [].
Proof.
  unfold Collection.find_one.
  induction docs as [|d0 rest IH]; simpl; [discriminate|].
  destruct (q d0) eqn:E.
  - intros [= <-]. simpl. destruct (p d0) eqn:P; [congruence|].
    intros Hf. exfalso.
    assert (Hin : In d0 (filter p rest)) by (rewrite Hf; simpl; auto).
    apply filter_In in Hin. destruct Hin; congruence.
  - intros Hfind.
    destruct (Collection.delete_one q rest) as [n rest'] eqn:D; simpl in *.
    destruct (p d0) eqn:P.
    + intros [= -> _]. apply find_some in Hfind. destruct Hfind; congruence.
    + apply IH; assumption.
Qed.

Lemma delete_many_spec q docs x :
  In x (Collection.delete_many q docs) <-> In x docs /\ q x = false.
Proof.
  unfold Collection.delete_many. rewrite filter_In.
  now rewrite negb_true_iff.
Qed.

End CollectionFacts.

(** Unfolds the monadic plumbing of a handler applied to a store. *)
Ltac run_monad :=
  unfold fmap, bind, ret, raise, read_customers, read_entries,
    write_customers, write_entries, delete_one_customer, delete_one_entry;
  simpl.

(** * The balance recalculator *)

Section Recalculator.

Context {num : Type} `{Amount num}.

Lemma update_customer_totals_run (cid : string) (s : db num) :
  update_customer_totals cid s
  = (inr tt,
     mkDb (Collection.update_one (customer_with_id cid)
             (recalculated cid s) (customers s))
          (credit_entries s)).
Proof. reflexivity. Qed.

Lemma recalculated_same_identity
      (cid : string) (s : db num) (c : Customer num) :
  same_identity c (recalculated cid s c).
Proof. unfold same_identity; simpl; auto. Qed.

Lemma recalculated_balanced
      (cid : string) (s : db num) (c : Customer num) :
  balanced (recalculated cid s c).
Proof. reflexivity. Qed.

(** What [GetById] sees after a recalculation. *)
Lemma find_after_update_customer_totals (cid : string) (s : db num) :
  Collection.find_one (customer_with_id cid)
    (customers (snd (update_customer_totals cid s)))
  = option_map (recalculated cid s)
      (Collection.find_one (customer_with_id cid) (customers s)).
Proof.
  rewrite update_customer_totals_run. simpl.
  apply find_one_update_one. auto.
Qed.

(** With distinct ids, the record carrying the recalculated id is the
    recalculated one. *)
Lemma owner_after_update_one (cid : string) (set : Customer num -> Customer num)
      (cs : list (Customer num)) (c : Customer num) :
  (forall d, c_id (set d) = c_id d) ->
  List.NoDup (List.map c_id cs) ->
  In c (Collection.update_one (customer_with_id cid) set cs) ->
  c_id c = cid ->
  exists c0, In c0 cs /\ c_id c0 = cid /\ c = set c0.
Proof.
  intros Hset.
  induction cs as [|d rest IH]; simpl; [tauto|].
  intros Hnd Hin Hid. inversion Hnd as [|? ? Hnotin Hnd']; subst.
  unfold customer_with_id at 1 in Hin.
  destruct (String.eqb (c_id d) (c_id c)) eqn:E.
  - apply String.eqb_eq in E.
    destruct Hin as [<-|Hin]; [exists d; auto|].
    exfalso. apply Hnotin. rewrite E. now apply in_map.
  - destruct Hin as [<-|Hin].
    + rewrite String.eqb_refl in E. discriminate.
    + destruct (IH Hnd' Hin eq_refl) as (c0 & ? & ? & ?).
      exists c0; auto.
Qed.

Lemma fetched_all (cid : string) (s : db num) :
  List.length (entries_of cid s) <= fetch_cap ->
  fetched_entries cid s = entries_of cid s.
Proof. intros Hle. unfold fetched_entries. now apply firstn_all2. Qed.

Lemma entries_of_none (cid : string) (s : db num) :
  (forall e, In e (credit_entries s) -> customer_id e <> cid) ->
  entries_of cid s = [].
Proof.
  intros Hno. unfold entries_of.
  induction (credit_entries s) as [|e es IH]; simpl; [reflexivity|].
  unfold entry_of_customer at 1.
  destruct (String.eqb (customer_id e) cid) eqn:E.
  - apply String.eqb_eq in E. exfalso. apply (Hno e); simpl; auto.
  - apply IH. intros e' He'. apply Hno. simpl; auto.
Qed.

(** Every successful entry mutation ends in a recalculation for the owner,
    run on a store whose customers are still those of the start. *)
Lemma entry_mutation_ends_in_recalculation
      (r : request) (s : db num) (cid : string) (resp : response) :
  entry_mutation_owner r s = Some cid ->
  fst (handle r s) = inr resp ->
  exists mid,
    customers mid = customers s /\
    snd (handle r s) = snd (update_customer_totals cid mid).
Proof.
  destruct r; simpl; try discriminate.
  - (* create *)
    intros [= <-]. unfold create_credit_entry. run_monad.
    destruct (Collection.find_one _ (customers s)); simpl; [|discriminate].
    intros _. eexists (mkDb (customers s) _). split; reflexivity.
  - (* partial update *)
    unfold update_credit_entry. run_monad.
    destruct (Collection.find_one _ (credit_entries s)) as [e|];
      simpl; [|discriminate].
    intros [= <-] _. eexists (mkDb (customers s) _). split; [reflexivity|].
    destruct (Collection.find_one _ _); reflexivity.
  - (* payment *)
    unfold update_payment_status. run_monad.
    destruct (Collection.find_one _ (credit_entries s)) as [e|];
      simpl; [|discriminate].
    intros [= <-] _. eexists (mkDb (customers s) _). split; [reflexivity|].
    destruct (Collection.find_one _ _); reflexivity.
  - (* delete *)
    unfold delete_credit_entry. run_monad.
    destruct (Collection.find_one _ (credit_entries s)) as [e|] eqn:F;
      simpl; [|discriminate].
    destruct (Collection.delete_one _ (credit_entries s)) as [n rest] eqn:D.
    intros [= <-]. destruct (Nat.eqb n 0); simpl; [discriminate|].
    intros _. eexists (mkDb (customers s) rest). split; reflexivity.
Qed.

(** A recalculation for [cid], run on a store with the customers of [s],
    leaves the owner as [owner_recalculated] says. *)
Lemma owner_recalculated_after (cid : string) (s mid : db num) :
  customers mid = customers s ->
  owner_recalculated cid s (snd (update_customer_totals cid mid)).
Proof.
  intros Hcs. unfold owner_recalculated.
  rewrite find_after_update_customer_totals, Hcs.
  destruct (Collection.find_one _ (customers s)) as [c0|]; simpl;
    [|reflexivity].
  exists (recalculated cid mid c0).
  split; [reflexivity|].
  repeat (split; [reflexivity|]).
  apply recalculated_same_identity.
Qed.

End Recalculator.

(** * Totals after entry mutations, the balance invariant, idempotence *)

Section Totals.

Context {num : Type} `{Amount num}.

Lemma delete_one_keeps_distinct (id : string) (cs : list (Customer num)) :
  List.NoDup (List.map c_id cs) ->
  List.NoDup
    (List.map c_id (snd (Collection.delete_one (customer_with_id id) cs))).
Proof.
  induction cs as [|d rest IH]; simpl; [auto|].
  intros Hnd. inversion Hnd as [|? ? Hnotin Hnd']; subst.
  destruct (customer_with_id id d); simpl; [exact Hnd'|].
  pose proof (@in_delete_one _ (customer_with_id id) rest) as Hsub.
  destruct (Collection.delete_one (customer_with_id id) rest) as [n rest'].
  simpl in *. constructor; [|now apply IH].
  intros Hin. apply Hnotin. apply in_map_iff in Hin.
  destruct Hin as (x & Hx & Hin). apply in_map_iff. eauto.
Qed.

(** Distinctness of customer ids is an invariant of the service as long as
    the generator draws fresh ids. *)
Lemma distinct_customer_ids_handle (r : request) (s : db num) :
  distinct_customer_ids s ->
  draws_fresh_id r s ->
  distinct_customer_ids (snd (handle r s)).
Proof.
  unfold distinct_customer_ids. intros Hnd Hfresh.
  destruct r; simpl in *.
  - unfold post_customers.
    destruct (validate_CustomerCreate body) as [e|cc]; [exact Hnd|].
    unfold create_customer, Collection.insert_one. run_monad.
    rewrite map_app. simpl.
    apply NoDup_incl_NoDup with (l := uuid4 g :: List.map c_id (customers s)).
    + now constructor.
    + rewrite length_app. simpl. lia.
    + intros x [<-|Hx]; apply in_or_app; simpl; auto.
  - exact Hnd.
  - unfold get_customer. run_monad.
    destruct (Collection.find_one _ _); exact Hnd.
  - unfold put_customer.
    destruct (validate_CustomerCreate body) as [e|cc]; [exact Hnd|].
    unfold update_customer. run_monad.
    destruct (Collection.find_one _ (customers s)); simpl; [|exact Hnd].
    assert (Hnd' : List.NoDup
                     (List.map c_id
                        (Collection.update_one (customer_with_id id)
                           (set_contact cc) (customers s)))).
    { rewrite update_one_map; [exact Hnd | reflexivity]. }
    destruct (Collection.find_one _ _); exact Hnd'.
  - unfold delete_customer. run_monad.
    pose proof (delete_one_keeps_distinct id (customers s) Hnd) as Hnd'.
    destruct (Collection.delete_one _ (customers s)) as [n rest].
    destruct (Nat.eqb n 0); exact Hnd'.
  - unfold create_credit_entry. run_monad.
    destruct (Collection.find_one _ (customers s)); simpl; [|exact Hnd].
    rewrite update_one_map; [exact Hnd | reflexivity].
  - exact Hnd.
  - unfold update_credit_entry. run_monad.
    destruct (Collection.find_one _ (credit_entries s)); simpl; [|exact Hnd].
    destruct (Collection.find_one _ _); simpl;
      (rewrite update_one_map; [exact Hnd | reflexivity]).
  - unfold update_payment_status. run_monad.
    destruct (Collection.find_one _ (credit_entries s)); simpl; [|exact Hnd].
    destruct (Collection.find_one _ _); simpl;
      (rewrite update_one_map; [exact Hnd | reflexivity]).
  - unfold delete_credit_entry. run_monad.
    destruct (Collection.find_one _ (credit_entries s)); simpl; [|exact Hnd].
    destruct (Collection.delete_one _ (credit_entries s)) as [n rest].
    destruct (Nat.eqb n 0); simpl; [exact Hnd|].
    rewrite update_one_map; [exact Hnd | reflexivity].
  - exact Hnd.
Qed.

(** C1 (as amended): in a store with distinct customer ids, after any
    successful credit-entry mutation (create, partial update, payment
    update, delete) the owning customer's [total_credit] and [total_paid]
    are the sums of [amount] and [paid_amount] over the first [fetch_cap]
    (1000) of its entries in store order, [outstanding_balance] is their
    difference, and the record is an old record with its non-total fields
    intact.  When the owner has at most 1000 entries the sums range over
    all of them. *)
Theorem entry_mutation_recalculates_owner
        (r : request) (s : db num) (cid : string) (resp : response)
        (c : Customer num) :
  distinct_customer_ids s ->
  entry_mutation_owner r s = Some cid ->
  fst (handle r s) = inr resp ->
  In c (customers (snd (handle r s))) ->
  c_id c = cid ->
  let s' := snd (handle r s) in
  total_credit c = py_sum (List.map amount (fetched_entries cid s')) /\
  total_paid c = py_sum (List.map paid_amount (fetched_entries cid s')) /\
  outstanding_balance c = sub (total_credit c) (total_paid c) /\
  (exists c0, In c0 (customers s) /\ same_identity c0 c) /\
  (List.length (entries_of cid s') <= fetch_cap ->
   total_credit c = py_sum (List.map amount (entries_of cid s')) /\
   total_paid c = py_sum (List.map paid_amount (entries_of cid s'))).
Proof.
  intros Hnd Hown Hok Hin Hid s'.
  destruct (entry_mutation_ends_in_recalculation r s cid resp Hown Hok)
    as (mid & Hcs & Hs').
  subst s'. rewrite Hs' in *. clear Hs'.
  rewrite update_customer_totals_run in Hin. simpl in Hin.
  unfold distinct_customer_ids in Hnd. rewrite <- Hcs in Hnd.
  destruct (owner_after_update_one cid (recalculated cid mid) (customers mid) c
              ltac:(reflexivity) Hnd Hin Hid) as (c0 & Hin0 & _ & ->).
  change (fetched_entries cid (snd (update_customer_totals cid mid)))
    with (fetched_entries cid mid).
  change (entries_of cid (snd (update_customer_totals cid mid)))
    with (entries_of cid mid).
  repeat split; try reflexivity.
  - exists c0. split; [now rewrite <- Hcs|]. apply recalculated_same_identity.
  - simpl. now rewrite (fetched_all cid mid).
  - simpl. now rewrite (fetched_all cid mid).
Qed.

Lemma all_balanced_empty : all_balanced (empty_db (num := num)).
Proof. intros c []. Qed.

Lemma all_balanced_update_customer_totals (cid : string) (s : db num) :
  all_balanced s -> all_balanced (snd (update_customer_totals cid s)).
Proof.
  intros Hb c Hin. rewrite update_customer_totals_run in Hin. simpl in Hin.
  apply in_update_one in Hin.
  destruct Hin as [Hin|(c0 & _ & _ & ->)]; [auto|].
  apply recalculated_balanced.
Qed.

Lemma all_balanced_handle (r : request) (s : db num) :
  all_balanced s -> all_balanced (snd (handle r s)).
Proof.
  intros Hb.
  destruct r; simpl.
  - (* POST /customers *)
    unfold post_customers.
    destruct (validate_CustomerCreate body) as [e|cc]; [exact Hb|].
    unfold create_customer. run_monad.
    intros c Hin. simpl in Hin. unfold Collection.insert_one in Hin.
    apply in_app_or in Hin. destruct Hin as [Hin|[<-|[]]]; [auto|].
    unfold balanced; simpl. symmetry. apply sub_zero_zero.
  - exact Hb.
  - unfold get_customer. run_monad.
    destruct (Collection.find_one _ _); exact Hb.
  - (* PUT /customers/{id} *)
    unfold put_customer.
    destruct (validate_CustomerCreate body) as [e|cc]; [exact Hb|].
    unfold update_customer. run_monad.
    destruct (Collection.find_one _ (customers s)) as [found|];
      simpl; [|exact Hb].
    assert (Hb' : all_balanced
                    (mkDb (Collection.update_one (customer_with_id id)
                             (set_contact cc) (customers s))
                          (credit_entries s))).
    { intros c Hin. simpl in Hin. apply in_update_one in Hin.
      destruct Hin as [Hin|(c0 & Hin0 & _ & ->)]; [auto|].
      unfold balanced; simpl. exact (Hb c0 Hin0). }
    destruct (Collection.find_one _ _); exact Hb'.
  - (* DELETE /customers/{id} *)
    unfold delete_customer. run_monad.
    destruct (Collection.delete_one _ (customers s)) as [n rest] eqn:D.
    assert (Hrest : forall c, In c rest -> balanced c).
    { intros c Hin. apply Hb.
      apply (in_delete_one (customer_with_id id)). now rewrite D. }
    destruct (Nat.eqb n 0); simpl; exact Hrest.
  - (* POST /credit-entries *)
    unfold create_credit_entry. run_monad.
    destruct (Collection.find_one _ (customers s)); simpl; [|exact Hb].
    apply (all_balanced_update_customer_totals _ (mkDb _ _)). exact Hb.
  - exact Hb.
  - (* PUT /credit-entries/{id} *)
    unfold update_credit_entry. run_monad.
    destruct (Collection.find_one _ (credit_entries s)); simpl; [|exact Hb].
    destruct (Collection.find_one _ _); simpl;
      apply (all_balanced_update_customer_totals _ (mkDb _ _)); exact Hb.
  - (* PATCH /credit-entries/{id}/payment *)
    unfold update_payment_status. run_monad.
    destruct (Collection.find_one _ (credit_entries s)); simpl; [|exact Hb].
    destruct (Collection.find_one _ _); simpl;
      apply (all_balanced_update_customer_totals _ (mkDb _ _)); exact Hb.
  - (* DELETE /credit-entries/{id} *)
    unfold delete_credit_entry. run_monad.
    destruct (Collection.find_one _ (credit_entries s)); simpl; [|exact Hb].
    destruct (Collection.delete_one _ (credit_entries s)) as [n rest].
    destruct (Nat.eqb n 0); simpl; [exact Hb|].
    apply (all_balanced_update_customer_totals _ (mkDb _ _)). exact Hb.
  - exact Hb.
Qed.

Lemma all_balanced_run (rs : list request) (s : db num) :
  all_balanced s -> all_balanced (run rs s).
Proof.
  revert s. unfold run.
  induction rs as [|r rs IH]; intros s Hb; simpl; [exact Hb|].
  apply IH. now apply all_balanced_handle.
Qed.

(** C2: [outstanding_balance = total_credit - total_paid] holds on the
    record a recalculation has just written, on every record of the empty
    store's descendants, and every request (customer create, update,
    delete, and each entry mutation with its recalculation) as well as the
    recalculation itself preserves it on every customer record it leaves
    in the store. *)
Theorem balance_invariant
        (s : db num) (r : request) (rs : list request) (cid : string) :
  all_balanced s ->
  all_balanced (snd (handle r s)) /\
  all_balanced (snd (update_customer_totals cid s)) /\
  all_balanced (run rs s) /\
  all_balanced (run rs empty_db) /\
  (forall (s0 : db num) (c : Customer num),
      Collection.find_one (customer_with_id cid)
        (customers (snd (update_customer_totals cid s0))) = Some c ->
      balanced c).
Proof.
  intros Hb. repeat split.
  - now apply all_balanced_handle.
  - now apply all_balanced_update_customer_totals.
  - now apply all_balanced_run.
  - apply all_balanced_run, all_balanced_empty.
  - intros s0 c. rewrite find_after_update_customer_totals.
    destruct (Collection.find_one _ _); simpl; [|discriminate].
    intros [= <-]. apply recalculated_balanced.
Qed.

(** C3: the recalculation is idempotent.  Run a second time on the store
    the first run left, it returns the same result and leaves the same
    store, hence the same totals on every customer record. *)
Theorem update_customer_totals_idempotent (cid : string) (s : db num) :
  let once := update_customer_totals cid s in
  let twice := update_customer_totals cid (snd once) in
  twice = once /\
  List.map totals (customers (snd twice))
  = List.map totals (customers (snd once)).
Proof.
  intros once twice.
  assert (E : twice = once).
  { subst once twice. rewrite !update_customer_totals_run. simpl.
    f_equal. f_equal.
    change (recalculated cid
              (mkDb (Collection.update_one (customer_with_id cid)
                       (recalculated cid s) (customers s))
                    (credit_entries s)))
      with (recalculated cid s).
    apply update_one_idempotent; [intros d Hd; exact Hd | reflexivity]. }
  split; [exact E | now rewrite E].
Qed.

End Totals.

(** * Dashboard, cascade delete and listing *)

Section ReadsAndCascade.

Context {num : Type} `{Amount num}.

(** C4 (as amended): [GetStats] leaves the store alone and returns the
    number of customers, the number of credit entries, and the sums of the
    cached [outstanding_balance], [total_credit] and [total_paid] over the
    first [fetch_cap] (1000) customers in store order; with at most 1000
    customers these are the sums over all customers. *)
Theorem get_dashboard_stats_spec (s : db num) :
  let counted := List.firstn fetch_cap (customers s) in
  get_dashboard_stats s
  = (inr (mkStats (List.length (customers s))
                  (List.length (credit_entries s))
                  (py_sum (List.map outstanding_balance counted))
                  (py_sum (List.map total_credit counted))
                  (py_sum (List.map total_paid counted))),
     s)
  /\ (List.length (customers s) <= fetch_cap ->
      get_dashboard_stats s
      = (inr (mkStats (List.length (customers s))
                      (List.length (credit_entries s))
                      (py_sum (List.map outstanding_balance (customers s)))
                      (py_sum (List.map total_credit (customers s)))
                      (py_sum (List.map total_paid (customers s)))),
         s)).
Proof.
  intros counted. split; [reflexivity|].
  intros Hle. unfold get_dashboard_stats. run_monad.
  unfold Collection.to_list. now rewrite (firstn_all2 (customers s)).
Qed.

Lemma filter_after_delete_many (cid : string) (es : list (CreditEntry num)) :
  List.filter (entry_of_customer cid)
    (Collection.delete_many (entry_of_customer cid) es) = [].
Proof.
  unfold Collection.delete_many.
  induction es as [|e es IH]; simpl; [reflexivity|].
  destruct (entry_of_customer cid e) eqn:E; simpl; [exact IH|].
  now rewrite E.
Qed.

Lemma get_credit_entries_none (cid : string) (s : db num) :
  entries_of cid s = [] -> get_credit_entries cid s = (inr [], s).
Proof.
  intros He. unfold get_credit_entries. run_monad.
  unfold entries_of in He. unfold Collection.find. now rewrite He.
Qed.

Lemma delete_one_removes_id (id : string) (cs : list (Customer num))
      (c : Customer num) :
  List.NoDup (List.map c_id cs) ->
  In c (snd (Collection.delete_one (customer_with_id id) cs)) ->
  c_id c <> id.
Proof.
  induction cs as [|d rest IH]; simpl; [tauto|].
  intros Hnd. inversion Hnd as [|? ? Hnotin Hnd']; subst.
  unfold customer_with_id at 1.
  destruct (String.eqb (c_id d) id) eqn:E; simpl.
  - apply String.eqb_eq in E. intros Hin Hc. apply Hnotin.
    rewrite E, <- Hc. now apply in_map.
  - destruct (Collection.delete_one (customer_with_id id) rest)
      as [n rest'] eqn:D; simpl in *.
    intros [<-|Hin].
    + now apply String.eqb_neq.
    + now apply IH.
Qed.

(** C5: [Delete(id)] on a present id succeeds, removes one customer record
    (the one with that id when ids are distinct), removes exactly the
    credit entries whose [customer_id] is [id], and a following
    list-by-customer for [id] returns the empty sequence; on an absent id
    it fails with NotFound and leaves the store as it was. *)
Theorem delete_customer_cascade (id : string) (s : db num) :
  let s' := snd (delete_customer id s) in
  match Collection.find_one (customer_with_id id) (customers s) with
  | Some c =>
      fst (delete_customer id s) = inr "Customer deleted successfully" /\
      S (List.length (customers s')) = List.length (customers s) /\
      (forall c', In c' (customers s') -> In c' (customers s)) /\
      (distinct_customer_ids s ->
       forall c', In c' (customers s') -> c_id c' <> id) /\
      (forall e, In e (credit_entries s') <->
                 In e (credit_entries s) /\ customer_id e <> id) /\
      get_credit_entries id s' = (inr [], s')
  | None =>
      exists err,
        delete_customer id s = (inl err, s) /\ NotFound err
  end.
Proof.
  intros s'. subst s'.
  destruct (Collection.find_one _ (customers s)) as [c|] eqn:F.
  - unfold delete_customer. run_monad.
    destruct (delete_one_match _ _ _ F) as [Hn Hlen].
    pose proof (@in_delete_one _ (customer_with_id id) (customers s)) as Hsub.
    pose proof (delete_one_removes_id id (customers s)) as Hgone.
    destruct (Collection.delete_one _ (customers s)) as [n rest].
    simpl in *. subst n. simpl.
    split; [reflexivity|]. split; [exact Hlen|]. split; [exact Hsub|].
    split; [intros Hnd c' Hin; now apply Hgone|].
    split.
    + intros e. rewrite delete_many_spec. unfold entry_of_customer.
      now rewrite String.eqb_neq.
    + apply get_credit_entries_none. unfold entries_of. simpl.
      apply filter_after_delete_many.
  - exists (HTTPException 404 "Customer not found").
    unfold delete_customer. run_monad.
    rewrite (delete_one_no_match _ _ F). simpl.
    destruct s; split; reflexivity.
Qed.

(** C9: listing by a [customer_id] that owns no entries succeeds with the
    empty sequence whether or not such a customer exists: the customers
    collection is never consulted, so replacing it by any other changes
    nothing in the answer. *)
Theorem get_credit_entries_unknown_customer
        (cid : string) (s : db num) (cs : list (Customer num)) :
  (forall e, In e (credit_entries s) -> customer_id e <> cid) ->
  get_credit_entries cid s = (inr [], s) /\
  fst (get_credit_entries cid (mkDb cs (credit_entries s)))
  = fst (get_credit_entries cid s).
Proof.
  intros Hno. split; [|reflexivity].
  apply get_credit_entries_none. now apply entries_of_none.
Qed.

End ReadsAndCascade.

(** * Creating and patching entries, creating customers *)

Section Writes.

Context {num : Type} `{Amount num}.

(** C6: creating an entry for a [customer_id] that no customer has fails
    with NotFound and leaves the store (hence the entries) as it was; for
    an existing customer the entry is appended with the request's fields,
    [is_paid = false], [paid_amount = 0], the generated id and
    [created_at], and when the operation returns the customer read back
    has its other fields intact, [total_credit] and [total_paid] equal to
    the sums of [amount] and [paid_amount] over the first 1000 entries it
    now owns (the new one included when it is among them), and
    [outstanding_balance] equal to their difference. *)
Theorem create_credit_entry_spec
        (g : fresh) (entry : CreditEntryCreate num) (s : db num) :
  let cid := ec_customer_id entry in
  match Collection.find_one (customer_with_id cid) (customers s) with
  | None =>
      exists err,
        create_credit_entry g entry s = (inl err, s) /\ NotFound err
  | Some c =>
      exists e s',
        create_credit_entry g entry s = (inr e, s') /\
        e_id e = uuid4 g /\ e_created_at e = utcnow g /\
        is_paid e = false /\ paid_amount e = zero /\
        customer_id e = cid /\ amount e = ec_amount entry /\
        description e = ec_description entry /\ date e = ec_date entry /\
        image_data e = ec_image_data entry /\
        credit_entries s' = (credit_entries s ++ [e])%list /\
        s' = snd (update_customer_totals cid
                    (mkDb (customers s) (credit_entries s ++ [e])%list)) /\
        Collection.find_one (customer_with_id cid) (customers s')
        = Some (recalculated cid s' c) /\
        entries_of cid s' = (entries_of cid s ++ [e])%list /\
        exists c',
          Collection.find_one (customer_with_id cid) (customers s')
          = Some c' /\
          total_credit c'
          = py_sum (List.map amount
                      (List.firstn fetch_cap (entries_of cid s ++ [e]))) /\
          total_paid c'
          = py_sum (List.map paid_amount
                      (List.firstn fetch_cap (entries_of cid s ++ [e]))) /\
          outstanding_balance c' = sub (total_credit c') (total_paid c') /\
          same_identity c c'
  end.
Proof.
  intros cid. subst cid.
  destruct (Collection.find_one _ (customers s)) as [c|] eqn:F.
  - set (e := mkCreditEntry (uuid4 g) (ec_customer_id entry)
                (ec_amount entry) (ec_description entry) (ec_date entry)
                (ec_image_data entry) false zero (utcnow g)).
    set (mid := mkDb (customers s) (credit_entries s ++ [e])%list).
    assert (Hown : entries_of (ec_customer_id entry) mid
                   = (entries_of (ec_customer_id entry) s ++ [e])%list).
    { unfold entries_of. simpl. rewrite filter_app. simpl.
      unfold entry_of_customer at 2. simpl.
      now rewrite String.eqb_refl. }
    pose proof (owner_recalculated_after (ec_customer_id entry) s mid
                  eq_refl) as Hrec.
    unfold owner_recalculated in Hrec. rewrite F in Hrec.
    destruct Hrec as (c' & Hfind & Htc & Htp & Hob & Hid).
    unfold fetched_entries in Htc, Htp, Hob.
    change (entries_of (ec_customer_id entry)
              (snd (update_customer_totals (ec_customer_id entry) mid)))
      with (entries_of (ec_customer_id entry) mid) in Htc, Htp, Hob.
    rewrite Hown in Htc, Htp, Hob.
    exists e, (snd (update_customer_totals (ec_customer_id entry) mid)).
    split.
    { unfold create_credit_entry. run_monad. rewrite F. simpl.
      reflexivity. }
    repeat (split; [reflexivity|]).
    split.
    { rewrite find_after_update_customer_totals. simpl.
      rewrite F. reflexivity. }
    split; [exact Hown|].
    exists c'. split; [exact Hfind|]. split; [exact Htc|].
    split; [exact Htp|]. split; [|exact Hid].
    now rewrite Htc, Htp.
  - exists (HTTPException 404 "Customer not found").
    unfold create_credit_entry. run_monad. rewrite F.
    split; reflexivity.
Qed.

(** C7: a partial update of an existing entry returns the stored entry, in
    which each of [amount], [description], [date], [is_paid],
    [paid_amount] has the supplied value when one is supplied and its
    prior value otherwise, and [id], [customer_id], [image_data],
    [created_at] have their prior values; in particular, when only
    [description] is supplied, [amount], [date], [is_paid] and
    [paid_amount] are unchanged.  No entry is added or removed and the
    entries with another id are left alone.  On an absent entry the
    update fails with NotFound and leaves the store as it was. *)
Theorem update_credit_entry_frame
        (id : string) (u : CreditEntryUpdate num) (s : db num) :
  let s' := snd (update_credit_entry id u s) in
  match Collection.find_one (entry_with_id id) (credit_entries s) with
  | Some e =>
      exists e',
        fst (update_credit_entry id u s) = inr e' /\
        Collection.find_one (entry_with_id id) (credit_entries s')
        = Some e' /\
        patched (eu_amount u) (amount e) (amount e') /\
        patched (option_map Some (eu_description u))
                (description e) (description e') /\
        patched (eu_date u) (date e) (date e') /\
        patched (eu_is_paid u) (is_paid e) (is_paid e') /\
        patched (eu_paid_amount u) (paid_amount e) (paid_amount e') /\
        e_id e' = e_id e /\ customer_id e' = customer_id e /\
        image_data e' = image_data e /\
        e_created_at e' = e_created_at e /\
        (eu_amount u = None -> eu_date u = None ->
         eu_is_paid u = None -> eu_paid_amount u = None ->
         amount e' = amount e /\ date e' = date e /\
         is_paid e' = is_paid e /\ paid_amount e' = paid_amount e) /\
        List.length (credit_entries s') = List.length (credit_entries s) /\
        (forall x, entry_with_id id x = false ->
                   (In x (credit_entries s') <-> In x (credit_entries s)))
  | None =>
      exists err,
        update_credit_entry id u s = (inl err, s) /\ NotFound err
  end.
Proof.
  intros s'. subst s'.
  destruct (Collection.find_one _ (credit_entries s)) as [e|] eqn:F.
  - assert (Hq : forall d, entry_with_id id d = true ->
                           entry_with_id id (set_update_data u d) = true)
      by (intros d Hd; exact Hd).
    pose proof (find_one_update_one (entry_with_id id) (set_update_data u)
                  (credit_entries s) Hq) as Hread.
    rewrite F in Hread. simpl in Hread.
    exists (set_update_data u e).
    unfold update_credit_entry. run_monad. rewrite F. simpl.
    rewrite Hread. simpl.
    split; [reflexivity|]. split; [exact Hread|].
    unfold patched.
    split; [destruct (eu_amount u); reflexivity|].
    split; [destruct (eu_description u); reflexivity|].
    split; [destruct (eu_date u); reflexivity|].
    split; [destruct (eu_is_paid u); reflexivity|].
    split; [destruct (eu_paid_amount u); reflexivity|].
    repeat (split; [reflexivity|]).
    split; [intros -> -> -> ->; repeat split|].
    split; [apply update_one_length|].
    intros x Hx. now apply in_update_one_other.
  - exists (HTTPException 404 "Credit entry not found").
    unfold update_credit_entry. run_monad. rewrite F.
    split; reflexivity.
Qed.

(** C8 (as amended): creating a customer succeeds whenever the body has a
    [name], whatever the string (the empty one included): the new record
    has the generated id, the body's fields, the current timestamp and
    zero totals, and is appended to the customers.  It fails with a
    ValidationError, leaving the store as it was, when [name] is
    missing. *)
Theorem post_customers_spec (g : fresh) (body : CustomerBody) (s : db num) :
  match body_name body with
  | Some n =>
      let c := mkCustomer (uuid4 g) n (body_phone body) (body_address body)
                          (utcnow g) zero zero zero in
      post_customers g body s
      = (inr c, mkDb (customers s ++ [c])%list (credit_entries s))
  | None =>
      exists err,
        post_customers g body s = (inl err, s) /\ ValidationError err
  end.
Proof.
  unfold post_customers, validate_CustomerCreate.
  destruct (body_name body) as [n|].
  - reflexivity.
  - exists (RequestValidationError "name"). split; reflexivity.
Qed.

Lemma recalculated_no_entries (cid : string) (s : db num) (c : Customer num) :
  entries_of cid s = [] -> zero_totals (recalculated cid s c).
Proof.
  intros He. unfold zero_totals, recalculated, fetched_entries.
  rewrite He, firstn_nil. simpl. unfold py_sum. simpl.
  repeat split. apply sub_zero_zero.
Qed.

(** C10: recalculating a customer that owns no entries writes zero into
    its three totals and nothing else; with distinct ids this is every
    record carrying that id.  In particular a successful deletion of the
    only entry a customer owns leaves that customer with no entries and
    with zero totals. *)
Theorem no_entries_zero_totals
        (cid : string) (s : db num) (c0 : Customer num) :
  Collection.find_one (customer_with_id cid) (customers s) = Some c0 ->
  (entries_of cid s = [] ->
   let s' := snd (update_customer_totals cid s) in
   (exists c, Collection.find_one (customer_with_id cid) (customers s')
              = Some c /\ zero_totals c /\ same_identity c0 c) /\
   (distinct_customer_ids s ->
    forall c, In c (customers s') -> c_id c = cid -> zero_totals c)) /\
  (forall (id : string) (e : CreditEntry num),
      Collection.find_one (entry_with_id id) (credit_entries s) = Some e ->
      entries_of cid s = [e] ->
      let s' := snd (delete_credit_entry id s) in
      fst (delete_credit_entry id s)
      = inr "Credit entry deleted successfully" /\
      entries_of cid s' = [] /\
      (exists c, Collection.find_one (customer_with_id cid) (customers s')
                 = Some c /\ zero_totals c /\ same_identity c0 c)).
Proof.
  intros F. split.
  - intros He s'. subst s'. split.
    + exists (recalculated cid s c0).
      rewrite find_after_update_customer_totals, F. simpl.
      split; [reflexivity|].
      split; [now apply recalculated_no_entries|].
      apply recalculated_same_identity.
    + intros Hnd c Hin Hid.
      rewrite update_customer_totals_run in Hin. simpl in Hin.
      destruct (owner_after_update_one cid (recalculated cid s) (customers s)
                  c ltac:(reflexivity) Hnd Hin Hid) as (c1 & _ & _ & ->).
      now apply recalculated_no_entries.
  - intros id e Fe He s'. subst s'.
    assert (Hcid : customer_id e = cid).
    { assert (Hin : In e (entries_of cid s)) by (rewrite He; simpl; auto).
      unfold entries_of in Hin. apply filter_In in Hin.
      destruct Hin as [_ Hq]. now apply String.eqb_eq in Hq. }
    pose proof (filter_delete_one_last (entry_with_id id)
                  (entry_of_customer cid) (credit_entries s) e Fe He)
      as Hlast.
    destruct (delete_one_match _ _ _ Fe) as [Hn _].
    unfold delete_credit_entry. run_monad. rewrite Fe. simpl.
    destruct (Collection.delete_one _ (credit_entries s)) as [n rest].
    simpl in *. subst n. simpl. rewrite Hcid.
    split; [reflexivity|]. split; [exact Hlast|].
    exists (recalculated cid (mkDb (customers s) rest) c0).
    rewrite (find_one_update_one (customer_with_id cid));
      [|intros d Hd; exact Hd].
    rewrite F. simpl.
    split; [reflexivity|].
    split; [now apply recalculated_no_entries|].
    apply recalculated_same_identity.
Qed.

End Writes.

(** * Listings *)

Section Listings.

Context {A : Type}.
Variable key : A -> Z.

Lemma insert_desc_permutation (d : A) (l : list A) :
  Permutation (d :: l) (Collection.insert_desc key d l).
Proof.
  induction l as [|d' rest IH]; simpl; [reflexivity|].
  destruct (key d' <=? key d)%Z; [reflexivity|].
  rewrite perm_swap. now constructor.
Qed.

Lemma sort_desc_permutation (l : list A) :
  Permutation l (Collection.sort_desc key l).
Proof.
  unfold Collection.sort_desc.
  induction l as [|d rest IH]; simpl; [constructor|].
  rewrite <- insert_desc_permutation. now constructor.
Qed.




End Listings.

Section ListingRoutes.

Context {num : Type} `{Amount num}.



End ListingRoutes.

(** * Further collection facts *)

Section MoreCollectionFacts.

Context {A : Type}.
Implicit Types (q p : A -> bool) (docs : list A).

Lemma find_one_insert_one q docs d :
  Collection.find_one q (Collection.insert_one d docs)
  = match Collection.find_one q docs with
    | Some x => Some x
    | None => if q d then Some d else None
    end.
Proof.
  unfold Collection.find_one, Collection.insert_one.
  induction docs as [|x rest IH]; simpl; [reflexivity|].
  destruct (q x); [reflexivity | exact IH].
Qed.

Lemma find_one_none_iff q docs :
  Collection.find_one q docs = None <-> forall x, In x docs -> q x = false.
Proof.
  unfold Collection.find_one. split.
  - intros Hn x Hin. exact (find_none q docs Hn x Hin).
  - induction docs as [|x rest IH]; simpl; [reflexivity|].
    intros Hall. rewrite (Hall x (or_introl eq_refl)).
    apply IH. intros y Hy. apply Hall. now right.
Qed.

Lemma update_one_absent q (set : A -> A) docs :
  Collection.find_one q docs = None ->
  Collection.update_one q set docs = docs.
Proof.
  unfold Collection.find_one.
  induction docs as [|d rest IH]; simpl; [reflexivity|].
  destruct (q d); [discriminate|]. intros Hn. now rewrite IH.
Qed.

Lemma in_delete_one_kept q docs x :
  q x = false ->
  In x docs -> In x (snd (Collection.delete_one q docs)).
Proof.
  intros Hx.
  induction docs as [|d rest IH]; simpl; [tauto|].
  destruct (q d) eqn:E; simpl.
  - intros [<-|?]; [congruence | auto].
  - destruct (Collection.delete_one q rest) as [n rest']; simpl in *.
    intros [?|?]; auto.
Qed.

(** With distinct keys, deleting the first document carrying a key leaves
    none that carries it. *)
Lemma delete_one_removes_key (key : A -> string) (k : string) docs x :
  List.NoDup (List.map key docs) ->
  In x (snd (Collection.delete_one (fun d => String.eqb (key d) k) docs)) ->
  key x <> k.
Proof.
  induction docs as [|d rest IH]; simpl; [tauto|].
  intros Hnd. inversion Hnd as [|? ? Hnotin Hnd']; subst.
  destruct (String.eqb (key d) k) eqn:E; simpl.
  - apply String.eqb_eq in E. intros Hin Hc. apply Hnotin.
    rewrite E, <- Hc. now apply in_map.
  - destruct (Collection.delete_one _ rest) as [n rest'] eqn:D; simpl in *.
    intros [<-|Hin].
    + now apply String.eqb_neq.
    + now apply IH.
Qed.

Lemma delete_one_keeps_nodup {B} (key : A -> B) q docs :
  List.NoDup (List.map key docs) ->
  List.NoDup (List.map key (snd (Collection.delete_one q docs))).
Proof.
  induction docs as [|d rest IH]; simpl; [auto|].
  intros Hnd. inversion Hnd as [|? ? Hnotin Hnd']; subst.
  destruct (q d); simpl; [exact Hnd'|].
  pose proof (@in_delete_one _ q rest) as Hsub.
  destruct (Collection.delete_one q rest) as [n rest'].
  simpl in *. constructor; [|now apply IH].
  intros Hin. apply Hnotin. apply in_map_iff in Hin.
  destruct Hin as (x & Hx & Hin). apply in_map_iff. eauto.
Qed.

(** A query [p] that the update cannot move a document across, and that
    does not select the document the update touches, sees the same
    documents before and after. *)
Lemma filter_update_one_elsewhere q p (set : A -> A) docs :
  (forall d, p (set d) = p d) ->
  (forall d, Collection.find_one q docs = Some d -> p d = false) ->
  List.filter p (Collection.update_one q set docs) = List.filter p docs.
Proof.
  unfold Collection.find_one. intros Hp.
  induction docs as [|d rest IH]; simpl; [reflexivity|].
  destruct (q d) eqn:E; simpl; intros Hd.
  - rewrite Hp, (Hd d eq_refl). reflexivity.
  - destruct (p d); [f_equal|]; now apply IH.
Qed.

Lemma filter_delete_one_elsewhere q p docs :
  (forall d, Collection.find_one q docs = Some d -> p d = false) ->
  List.filter p (snd (Collection.delete_one q docs)) = List.filter p docs.
Proof.
  unfold Collection.find_one.
  induction docs as [|d rest IH]; simpl; [reflexivity|].
  destruct (q d) eqn:E; simpl; intros Hd.
  - now rewrite (Hd d eq_refl).
  - destruct (Collection.delete_one q rest) as [n rest'] eqn:D; simpl in *.
    destruct (p d); [f_equal|]; now apply IH.
Qed.

End MoreCollectionFacts.

(** * Customer routes *)

Section CustomerRoutes.

Context {num : Type} `{Amount num}.

(** X3: a customer created under a fresh id is found by [GetById] right
    afterwards: the answer carries the generated id, the body's [name],
    [phone] and [address], and zero totals.  The creation changes the
    answer of [GetById] for no other id. *)
Theorem get_customer_after_create
        (g : fresh) (body : CustomerBody) (s : db num) (n : string) :
  body_name body = Some n ->
  ~ In (uuid4 g) (List.map c_id (customers s)) ->
  let s' := snd (post_customers g body s) in
  (exists c,
      get_customer (uuid4 g) s' = (inr c, s') /\
      c_id c = uuid4 g /\ name c = n /\ phone c = body_phone body /\
      address c = body_address body /\ zero_totals c) /\
  (forall id, id <> uuid4 g ->
              fst (get_customer id s') = fst (get_customer id s)).
Proof.
  intros Hname Hfresh s'. subst s'.
  unfold post_customers, validate_CustomerCreate. rewrite Hname.
  unfold create_customer, get_customer. run_monad.
  split.
  - rewrite find_one_insert_one.
    assert (Hnone : Collection.find_one (customer_with_id (uuid4 g))
                      (customers s) = None).
    { apply find_one_none_iff. intros x Hin.
      unfold customer_with_id. apply String.eqb_neq. intros Heq.
      apply Hfresh. rewrite <- Heq. now apply in_map. }
    rewrite Hnone. unfold customer_with_id. simpl.
    rewrite String.eqb_refl. eexists. split; [reflexivity|].
    unfold zero_totals. simpl. repeat split.
  - intros id Hid. rewrite find_one_insert_one.
    destruct (Collection.find_one (customer_with_id id) (customers s));
      [reflexivity|].
    unfold customer_with_id. simpl.
    apply not_eq_sym in Hid. apply String.eqb_neq in Hid.
    now rewrite Hid.
Qed.

(** X4: [PUT /customers/{id}] with a body lacking [name] is rejected with a
    ValidationError before the store is looked at; on an absent id it fails
    with NotFound; both leave the store as it was.  On a present id it
    returns the stored record with [name], [phone], [address] replaced by
    the body's (an absent [phone] or [address] clears the field), [id],
    [created_at] and the three totals kept; [GetById] reads that record
    back; the entries, the ids, order and totals of all customers, and
    every record with another id are untouched. *)
Theorem put_customer_frame (id : string) (body : CustomerBody) (s : db num) :
  let s' := snd (put_customer id body s) in
  match body_name body with
  | None =>
      exists err, put_customer id body s = (inl err, s) /\ ValidationError err
  | Some n =>
      match Collection.find_one (customer_with_id id) (customers s) with
      | None =>
          exists err, put_customer id body s = (inl err, s) /\ NotFound err
      | Some c =>
          exists c',
            fst (put_customer id body s) = inr c' /\
            get_customer id s' = (inr c', s') /\
            name c' = n /\ phone c' = body_phone body /\
            address c' = body_address body /\
            c_id c' = c_id c /\ c_created_at c' = c_created_at c /\
            totals c' = totals c /\
            credit_entries s' = credit_entries s /\
            List.map c_id (customers s') = List.map c_id (customers s) /\
            List.map totals (customers s')
            = List.map totals (customers s) /\
            (forall x, customer_with_id id x = false ->
                       (In x (customers s') <-> In x (customers s)))
      end
  end.
Proof.
  intros s'. subst s'.
  unfold put_customer, validate_CustomerCreate.
  destruct (body_name body) as [n|].
  - destruct (Collection.find_one _ (customers s)) as [c|] eqn:F.
    + set (u := mkCustomerCreate n (body_phone body) (body_address body)).
      assert (Hq : forall d : Customer num,
                 customer_with_id id d = true ->
                 customer_with_id id (set_contact u d) = true)
        by (intros d Hd; exact Hd).
      pose proof (find_one_update_one (customer_with_id id) (set_contact u)
                    (customers s) Hq) as Hread.
      rewrite F in Hread. simpl in Hread.
      exists (set_contact u c).
      unfold update_customer, get_customer. run_monad. rewrite F. simpl.
      rewrite Hread. simpl. rewrite Hread.
      repeat (split; [reflexivity|]).
      split; [apply update_one_map; reflexivity|].
      split; [apply update_one_map; reflexivity|].
      intros x Hx. now apply in_update_one_other.
    + exists (HTTPException 404 "Customer not found").
      unfold update_customer. run_monad. rewrite F. split; reflexivity.
  - exists (RequestValidationError "name"). split; reflexivity.
Qed.

End CustomerRoutes.

(** * Entry routes *)

Section EntryRoutes.

Context {num : Type} `{Amount num}.

(** X5: a recalculation for an id no customer carries changes nothing; for
    any id it leaves the entries, the number, order and ids of the
    customers, and every record with another id as they were. *)
Theorem update_customer_totals_frame (cid : string) (s : db num) :
  let s' := snd (update_customer_totals cid s) in
  credit_entries s' = credit_entries s /\
  List.map c_id (customers s') = List.map c_id (customers s) /\
  (forall x, customer_with_id cid x = false ->
             (In x (customers s') <-> In x (customers s))) /\
  (Collection.find_one (customer_with_id cid) (customers s) = None ->
   update_customer_totals cid s = (inr tt, s)).
Proof.
  intros s'. subst s'. rewrite update_customer_totals_run. simpl.
  split; [reflexivity|].
  split; [apply update_one_map; reflexivity|].
  split; [intros x Hx; apply in_update_one_other; auto|].
  intros Hn.
  pose proof (update_one_absent (customer_with_id cid)
                (recalculated cid s) (customers s) Hn) as E.
  rewrite E. now destruct s.
Qed.

(** X6: the payment update of an existing entry sets [is_paid] and
    [paid_amount] to the request's values, whatever they were and whatever
    [amount] is, keeps every other field, returns the stored entry, adds or
    removes no entry, leaves the entries with another id alone, and leaves
    the owner (if stored) with its other fields intact, [total_credit] and
    [total_paid] equal to the sums of [amount] and [paid_amount] over the
    first 1000 entries it owns afterwards and [outstanding_balance] equal
    to their difference.  On an absent entry it fails with NotFound and
    writes nothing. *)
Theorem update_payment_status_frame
        (id : string) (p : PaymentUpdate num) (s : db num) :
  let s' := snd (update_payment_status id p s) in
  match Collection.find_one (entry_with_id id) (credit_entries s) with
  | Some e =>
      exists e',
        fst (update_payment_status id p s) = inr e' /\
        Collection.find_one (entry_with_id id) (credit_entries s')
        = Some e' /\
        is_paid e' = pu_is_paid p /\ paid_amount e' = pu_paid_amount p /\
        amount e' = amount e /\ description e' = description e /\
        date e' = date e /\ entry_key e' = entry_key e /\
        List.length (credit_entries s') = List.length (credit_entries s) /\
        (forall x, entry_with_id id x = false ->
                   (In x (credit_entries s') <-> In x (credit_entries s))) /\
        Collection.find_one (customer_with_id (customer_id e)) (customers s')
        = option_map (recalculated (customer_id e) s')
            (Collection.find_one (customer_with_id (customer_id e))
               (customers s)) /\
        owner_recalculated (customer_id e) s s'
  | None =>
      exists err,
        update_payment_status id p s = (inl err, s) /\ NotFound err
  end.
Proof.
  intros s'. subst s'.
  destruct (Collection.find_one _ (credit_entries s)) as [e|] eqn:F.
  - assert (Hq : forall d : CreditEntry num,
               entry_with_id id d = true ->
               entry_with_id id (set_payment p d) = true)
      by (intros d Hd; exact Hd).
    pose proof (find_one_update_one (entry_with_id id) (set_payment p)
                  (credit_entries s) Hq) as Hread.
    rewrite F in Hread. simpl in Hread.
    exists (set_payment p e).
    unfold update_payment_status. run_monad. rewrite F. simpl.
    rewrite Hread. simpl.
    split; [reflexivity|]. split; [exact Hread|].
    repeat (split; [reflexivity|]).
    split; [apply update_one_length|].
    split; [intros x Hx; now apply in_update_one_other|].
    split.
    + apply (find_one_update_one (customer_with_id (customer_id e))).
      intros d Hd; exact Hd.
    + exact (owner_recalculated_after (customer_id e) s
               (mkDb (customers s)
                     (Collection.update_one (entry_with_id id)
                        (set_payment p) (credit_entries s)))
               eq_refl).
  - exists (HTTPException 404 "Credit entry not found").
    unfold update_payment_status. run_monad. rewrite F.
    split; reflexivity.
Qed.

(** X7: with requests handled one at a time, deleting an existing entry
    always succeeds (the second NotFound of the handler is never raised):
    exactly one entry goes, no entry with another id is lost and none
    appears, and the owner (if stored) is left with its other fields
    intact, [total_credit] and [total_paid] equal to the sums of [amount]
    and [paid_amount] over the first 1000 entries it still owns and
    [outstanding_balance] equal to their difference.  With distinct entry
    ids no entry with that id remains, so deleting it again fails with
    NotFound.  On an absent entry the deletion fails with NotFound and
    writes nothing. *)
Theorem delete_credit_entry_spec (id : string) (s : db num) :
  let s' := snd (delete_credit_entry id s) in
  match Collection.find_one (entry_with_id id) (credit_entries s) with
  | Some e =>
      fst (delete_credit_entry id s)
      = inr "Credit entry deleted successfully" /\
      S (List.length (credit_entries s')) = List.length (credit_entries s) /\
      (forall x, In x (credit_entries s') -> In x (credit_entries s)) /\
      (forall x, entry_with_id id x = false ->
                 In x (credit_entries s) -> In x (credit_entries s')) /\
      customers s'
      = customers
          (snd (update_customer_totals (customer_id e)
                  (mkDb (customers s) (credit_entries s')))) /\
      Collection.find_one (customer_with_id (customer_id e)) (customers s')
      = option_map (recalculated (customer_id e) s')
          (Collection.find_one (customer_with_id (customer_id e))
             (customers s)) /\
      owner_recalculated (customer_id e) s s' /\
      (distinct_entry_ids s ->
       (forall x, In x (credit_entries s') -> e_id x <> id) /\
       exists err,
         delete_credit_entry id s' = (inl err, s') /\ NotFound err)
  | None =>
      exists err,
        delete_credit_entry id s = (inl err, s) /\ NotFound err
  end.
Proof.
  intros s'. subst s'.
  destruct (Collection.find_one _ (credit_entries s)) as [e|] eqn:F.
  - destruct (delete_one_match _ _ _ F) as [Hn Hlen].
    pose proof (@in_delete_one _ (entry_with_id id) (credit_entries s))
      as Hsub.
    pose proof (fun x Hx => @in_delete_one_kept _ (entry_with_id id)
                              (credit_entries s) x Hx) as Hkept.
    pose proof (fun x => delete_one_removes_key e_id id (credit_entries s) x)
      as Hgone.
    unfold delete_credit_entry. run_monad. rewrite F. simpl.
    fold (entry_with_id (num := num) id) in Hgone.
    destruct (Collection.delete_one _ (credit_entries s)) as [n rest].
    simpl in *. subst n. simpl.
    split; [reflexivity|]. split; [exact Hlen|]. split; [exact Hsub|].
    split; [exact Hkept|]. split; [reflexivity|].
    split.
    { apply (find_one_update_one (customer_with_id (customer_id e))).
      intros d Hd; exact Hd. }
    split.
    { exact (owner_recalculated_after (customer_id e) s
               (mkDb (customers s) rest) eq_refl). }
    intros Hnd.
    assert (Hno : forall x, In x rest -> e_id x <> id)
      by (intros x Hx; now apply (Hgone x Hnd)).
    split; [exact Hno|].
    exists (HTTPException 404 "Credit entry not found").
    assert (Hnone : Collection.find_one (entry_with_id id) rest = None).
    { apply find_one_none_iff. intros x Hx.
      unfold entry_with_id. apply String.eqb_neq. now apply Hno. }
    rewrite Hnone. split; reflexivity.
  - exists (HTTPException 404 "Credit entry not found").
    unfold delete_credit_entry. run_monad. rewrite F.
    split; reflexivity.
Qed.

End EntryRoutes.

(** * What requests never do *)

Section Never.

Context {num : Type} `{Amount num}.

(** A handler that raises has written nothing, and what it raises is a
    NotFound or a ValidationError: every [raise] precedes the first write,
    and the document a handler has just updated is always there to be read
    back. *)
Lemma handler_error_writes_nothing
      (r : request) (s : db num) (err : error) :
  fst (handle r s) = inl err ->
  snd (handle r s) = s /\ (NotFound err \/ ValidationError err).
Proof.
  assert (Hqc : forall id (u : CustomerCreate) (d : Customer num),
             customer_with_id id d = true ->
             customer_with_id id (set_contact u d) = true)
    by (intros ? ? d Hd; exact Hd).
  assert (Hqu : forall id (u : CreditEntryUpdate num) (d : CreditEntry num),
             entry_with_id id d = true ->
             entry_with_id id (set_update_data u d) = true)
    by (intros ? ? d Hd; exact Hd).
  assert (Hqp : forall id (p : PaymentUpdate num) (d : CreditEntry num),
             entry_with_id id d = true ->
             entry_with_id id (set_payment p d) = true)
    by (intros ? ? d Hd; exact Hd).
  destruct r; simpl.
  - unfold post_customers, validate_CustomerCreate.
    destruct (body_name body); simpl.
    + unfold create_customer. run_monad. discriminate.
    + intros [= <-]. split; [reflexivity | right; reflexivity].
  - unfold get_customers. run_monad. discriminate.
  - unfold get_customer. run_monad.
    destruct (Collection.find_one _ _); simpl; [discriminate|].
    intros [= <-]. split; [reflexivity | left; reflexivity].
  - unfold put_customer, validate_CustomerCreate.
    destruct (body_name body) as [n|]; simpl.
    + unfold update_customer. run_monad.
      destruct (Collection.find_one _ (customers s)) as [c|] eqn:F; simpl.
      * rewrite (find_one_update_one _ _ _ (Hqc id _)), F. simpl.
        discriminate.
      * intros [= <-]. split; [reflexivity | left; reflexivity].
    + intros [= <-]. split; [reflexivity | right; reflexivity].
  - unfold delete_customer. run_monad.
    destruct (Collection.find_one (customer_with_id id) (customers s))
      as [c|] eqn:F.
    + destruct (delete_one_match _ _ _ F) as [Hn _].
      destruct (Collection.delete_one _ (customers s)) as [n rest].
      simpl in *. subst n. simpl. discriminate.
    + rewrite (delete_one_no_match _ _ F). simpl.
      intros [= <-]. split; [now destruct s | left; reflexivity].
  - unfold create_credit_entry. run_monad.
    destruct (Collection.find_one _ (customers s)); simpl; [discriminate|].
    intros [= <-]. split; [reflexivity | left; reflexivity].
  - unfold get_credit_entries. run_monad. discriminate.
  - unfold update_credit_entry. run_monad.
    destruct (Collection.find_one _ (credit_entries s)) as [e|] eqn:F; simpl.
    + rewrite (find_one_update_one _ _ _ (Hqu id _)), F. simpl.
      discriminate.
    + intros [= <-]. split; [reflexivity | left; reflexivity].
  - unfold update_payment_status. run_monad.
    destruct (Collection.find_one _ (credit_entries s)) as [e|] eqn:F; simpl.
    + rewrite (find_one_update_one _ _ _ (Hqp id _)), F. simpl.
      discriminate.
    + intros [= <-]. split; [reflexivity | left; reflexivity].
  - unfold delete_credit_entry. run_monad.
    destruct (Collection.find_one _ (credit_entries s)) as [e|] eqn:F; simpl.
    + destruct (delete_one_match _ _ _ F) as [Hn _].
      destruct (Collection.delete_one _ (credit_entries s)) as [n rest].
      simpl in *. subst n. simpl. discriminate.
    + intros [= <-]. split; [reflexivity | left; reflexivity].
  - unfold get_dashboard_stats. run_monad. discriminate.
Qed.

(** X8: what an error answer of a route means for the store, the store
    itself answering every call.  A route answers an error in two ways
    only.  Either the handler raised: then
    the error is a NotFound or a ValidationError and nothing has been
    written.  Or the handler returned and its answer could not be rendered
    (an amount in it is not finite): then the route answers 500 and the
    store is the one the handler left, writes included. *)
Theorem route_error_cases
        (finite : num -> bool) (r : request) (s : db num) (err : error) :
  fst (route finite r s) = inl err ->
  (fst (handle r s) = inl err /\
   (NotFound err \/ ValidationError err) /\
   snd (route finite r s) = s)
  \/
  (err = InternalError /\
   exists resp,
     fst (handle r s) = inr resp /\ renders finite resp = false /\
     snd (route finite r s) = snd (handle r s)).
Proof.
  unfold route. intros Herr.
  pose proof (handler_error_writes_nothing r s) as Hraise.
  destruct (handle r s) as [[e|resp] s'] eqn:E; simpl in *.
  - left. injection Herr as <-.
    destruct (Hraise e eq_refl) as [Hs Hst]. auto.
  - right. destruct (renders finite resp) eqn:R; simpl in *;
      [discriminate|].
    injection Herr as <-. split; [reflexivity|].
    exists resp. auto.
Qed.

(** X10: no request changes the [id], [customer_id], [image_data] or
    [created_at] of a stored entry: an entry found after a request has the
    key of an entry stored before it, unless the request created it under
    the generated id for the customer named in the body.  The two entry
    updates moreover keep the number and order of the entries. *)
Theorem entry_keys_stable (r : request) (s : db num) :
  let s' := snd (handle r s) in
  (forall e', In e' (credit_entries s') ->
     (exists e, In e (credit_entries s) /\ entry_key e' = entry_key e) \/
     (exists g entry,
         r = POST_credit_entries g entry /\
         e_id e' = uuid4 g /\ customer_id e' = ec_customer_id entry)) /\
  match r with
  | PUT_credit_entry _ _ | PATCH_payment _ _ =>
      List.map entry_key (credit_entries s')
      = List.map entry_key (credit_entries s)
  | _ => True
  end.
Proof.
  intros s'. subst s'.
  assert (Hsame : forall s1 : db num,
             credit_entries s1 = credit_entries s ->
             forall e', In e' (credit_entries s1) ->
             (exists e, In e (credit_entries s) /\ entry_key e' = entry_key e)
             \/ (exists g entry,
                    r = POST_credit_entries g entry /\
                    e_id e' = uuid4 g /\
                    customer_id e' = ec_customer_id entry)).
  { intros s1 -> e' Hin. left. exists e'. auto. }
  assert (Hsub : forall es : list (CreditEntry num),
             (forall x, In x es -> In x (credit_entries s)) ->
             forall e', In e' es ->
             (exists e, In e (credit_entries s) /\ entry_key e' = entry_key e)
             \/ (exists g entry,
                    r = POST_credit_entries g entry /\
                    e_id e' = uuid4 g /\
                    customer_id e' = ec_customer_id entry)).
  { intros es Hes e' Hin. left. exists e'. auto. }
  assert (Hupd : forall (q : CreditEntry num -> bool) set,
             (forall d, entry_key (set d) = entry_key d) ->
             forall e',
               In e' (Collection.update_one q set (credit_entries s)) ->
             (exists e, In e (credit_entries s) /\ entry_key e' = entry_key e)
             \/ (exists g entry,
                    r = POST_credit_entries g entry /\
                    e_id e' = uuid4 g /\
                    customer_id e' = ec_customer_id entry)).
  { intros q set Hk e' Hin. left. apply in_update_one in Hin.
    destruct Hin as [Hin|(d & Hd & _ & ->)]; [exists e'; auto|].
    exists d. auto. }
  destruct r; simpl.
  - split; [|exact I]. apply Hsame.
    unfold post_customers.
    destruct (validate_CustomerCreate body); reflexivity.
  - split; [|exact I]. now apply Hsame.
  - split; [|exact I]. apply Hsame.
    unfold get_customer. run_monad.
    destruct (Collection.find_one _ _); reflexivity.
  - split; [|exact I]. apply Hsame.
    unfold put_customer.
    destruct (validate_CustomerCreate body); [reflexivity|].
    unfold update_customer. run_monad.
    destruct (Collection.find_one _ (customers s)); simpl; [|reflexivity].
    destruct (Collection.find_one _ _); reflexivity.
  - split; [|exact I].
    unfold delete_customer. run_monad.
    destruct (Collection.delete_one _ (customers s)) as [n rest].
    destruct (Nat.eqb n 0); simpl; [now apply Hsame|].
    apply Hsub. intros x Hx. now apply delete_many_spec in Hx.
  - split; [|exact I].
    unfold create_credit_entry. run_monad.
    destruct (Collection.find_one _ (customers s)); simpl;
      [|now apply Hsame].
    unfold Collection.insert_one. intros e' Hin.
    apply in_app_or in Hin. destruct Hin as [Hin|[<-|[]]].
    + left. exists e'. auto.
    + right. exists g, entry. auto.
  - split; [|exact I]. now apply Hsame.
  - unfold update_credit_entry. run_monad.
    destruct (Collection.find_one _ (credit_entries s)); simpl;
      [|split; [now apply Hsame | reflexivity]].
    destruct (Collection.find_one _ _); simpl;
      (split; [apply Hupd; reflexivity | apply update_one_map; reflexivity]).
  - unfold update_payment_status. run_monad.
    destruct (Collection.find_one _ (credit_entries s)); simpl;
      [|split; [now apply Hsame | reflexivity]].
    destruct (Collection.find_one _ _); simpl;
      (split; [apply Hupd; reflexivity | apply update_one_map; reflexivity]).
  - split; [|exact I].
    unfold delete_credit_entry. run_monad.
    destruct (Collection.find_one _ (credit_entries s)); simpl;
      [|now apply Hsame].
    pose proof (@in_delete_one _ (entry_with_id (num := num) id)
                  (credit_entries s)) as Hd.
    destruct (Collection.delete_one _ (credit_entries s)) as [n rest].
    destruct (Nat.eqb n 0); simpl; apply Hsub; exact Hd.
  - split; [|exact I]. now apply Hsame.
Qed.

End Never.

(** * Invariants of the store *)

Section StoreInvariants.

Context {num : Type} `{Amount num}.

Lemma recalculated_same_entries
      (cid : string) (s1 s2 : db num) (c : Customer num) :
  entries_of cid s1 = entries_of cid s2 ->
  recalculated cid s1 c = recalculated cid s2 c.
Proof.
  intros He. unfold recalculated, fetched_entries. now rewrite He.
Qed.

Lemma entries_of_insert_other
      (cid : string) (e : CreditEntry num) (es : list (CreditEntry num)) :
  customer_id e <> cid ->
  List.filter (entry_of_customer cid) (Collection.insert_one e es)
  = List.filter (entry_of_customer cid) es.
Proof.
  intros Hne. unfold Collection.insert_one. rewrite filter_app. simpl.
  unfold entry_of_customer at 2. apply String.eqb_neq in Hne.
  rewrite Hne. apply app_nil_r.
Qed.

Lemma entries_of_delete_many_other
      (cid id : string) (es : list (CreditEntry num)) :
  cid <> id ->
  List.filter (entry_of_customer cid)
    (Collection.delete_many (entry_of_customer id) es)
  = List.filter (entry_of_customer cid) es.
Proof.
  intros Hne. unfold Collection.delete_many.
  induction es as [|e es IH]; simpl; [reflexivity|].
  destruct (entry_of_customer id e) eqn:E; simpl.
  - assert (Hc : entry_of_customer cid e = false).
    { unfold entry_of_customer in *. apply String.eqb_eq in E.
      rewrite E. apply String.eqb_neq. now apply not_eq_sym. }
    rewrite Hc. exact IH.
  - destruct (entry_of_customer cid e); [f_equal|]; exact IH.
Qed.

(** What a request can do to the store: nothing; append one customer with
    zero totals under the generated id; rewrite the contact fields of the
    first customer with an id; remove the first customer with an id and all
    entries naming it; or change the entries of one customer [cid] (append
    one, update one in place, remove one) and then recalculate [cid]. *)
Lemma handle_effect (r : request) (s : db num) :
  let s' := snd (handle r s) in
  s' = s
  \/ (exists g body c,
         r = POST_customers g body /\ c_id c = uuid4 g /\ zero_totals c /\
         s' = mkDb (Collection.insert_one c (customers s))
                   (credit_entries s))
  \/ (exists id u,
         s' = mkDb (Collection.update_one (customer_with_id id)
                      (set_contact u) (customers s))
                   (credit_entries s))
  \/ (exists id,
         s' = mkDb (snd (Collection.delete_one (customer_with_id id)
                           (customers s)))
                   (Collection.delete_many (entry_of_customer id)
                      (credit_entries s)))
  \/ (exists cid mid,
         customers mid = customers s /\
         (forall cid', cid' <> cid ->
                       entries_of cid' mid = entries_of cid' s) /\
         (forall e', In e' (credit_entries mid) ->
                     (exists e, In e (credit_entries s) /\
                                customer_id e' = customer_id e) \/
                     In (customer_id e') (List.map c_id (customers s))) /\
         (distinct_entry_ids s -> draws_fresh_entry_id r s ->
          distinct_entry_ids mid) /\
         s' = snd (update_customer_totals cid mid)).
Proof.
  intros s'. subst s'.
  destruct r; simpl.
  - unfold post_customers.
    destruct (validate_CustomerCreate body) as [e|cc]; [now left|].
    right; left. unfold create_customer. run_monad.
    exists g, body,
      (mkCustomer (uuid4 g) (cc_name cc) (cc_phone cc) (cc_address cc)
                  (utcnow g) zero zero zero).
    repeat split.
  - now left.
  - left. unfold get_customer. run_monad.
    destruct (Collection.find_one _ _); reflexivity.
  - unfold put_customer.
    destruct (validate_CustomerCreate body) as [e|cc]; [now left|].
    unfold update_customer. run_monad.
    destruct (Collection.find_one _ (customers s)); simpl; [|now left].
    right; right; left. exists id, cc.
    destruct (Collection.find_one _ _); reflexivity.
  - unfold delete_customer. run_monad.
    destruct (Collection.find_one (customer_with_id id) (customers s))
      as [c|] eqn:F.
    + right; right; right; left. exists id.
      destruct (delete_one_match _ _ _ F) as [Hn _].
      destruct (Collection.delete_one _ (customers s)) as [n rest].
      simpl in *. subst n. reflexivity.
    + left. rewrite (delete_one_no_match _ _ F). simpl. now destruct s.
  - unfold create_credit_entry. run_monad.
    destruct (Collection.find_one _ (customers s)) as [c|] eqn:F;
      simpl; [|now left].
    right; right; right; right.
    exists (ec_customer_id entry).
    exists (mkDb (customers s)
                 (Collection.insert_one
                    (mkCreditEntry (uuid4 g) (ec_customer_id entry)
                       (ec_amount entry) (ec_description entry)
                       (ec_date entry) (ec_image_data entry) false zero
                       (utcnow g))
                    (credit_entries s))).
    split; [reflexivity|].
    split.
    { intros cid' Hne. unfold entries_of. simpl.
      apply entries_of_insert_other. simpl. now apply not_eq_sym. }
    split.
    { simpl. unfold Collection.insert_one. intros e' Hin.
      apply in_app_or in Hin. destruct Hin as [Hin|[<-|[]]].
      - left. exists e'. auto.
      - right. simpl. apply find_some in F. destruct F as [Hin Hq].
        unfold customer_with_id in Hq. apply String.eqb_eq in Hq.
        rewrite <- Hq. now apply in_map. }
    split; [|reflexivity].
    unfold distinct_entry_ids. simpl. intros Hnd Hfresh.
    unfold Collection.insert_one. rewrite map_app. simpl.
    apply NoDup_incl_NoDup
      with (l := uuid4 g :: List.map e_id (credit_entries s)).
    + now constructor.
    + rewrite length_app. simpl. lia.
    + intros x [<-|Hx]; apply in_or_app; simpl; auto.
  - now left.
  - unfold update_credit_entry. run_monad.
    destruct (Collection.find_one _ (credit_entries s)) as [e|] eqn:F;
      simpl; [|now left].
    rewrite (find_one_update_one (entry_with_id id)
               (set_update_data entry_update));
      [|intros d Hd; exact Hd].
    rewrite F. simpl.
    right; right; right; right.
    exists (customer_id e).
    exists (mkDb (customers s)
                 (Collection.update_one (entry_with_id id)
                    (set_update_data entry_update) (credit_entries s))).
    split; [reflexivity|].
    split.
    { intros cid' Hne. unfold entries_of. simpl.
      apply filter_update_one_elsewhere; [reflexivity|].
      intros d Hd. rewrite F in Hd. injection Hd as <-.
      unfold entry_of_customer. apply String.eqb_neq. now apply not_eq_sym. }
    split.
    { simpl. intros e' Hin. left. apply in_update_one in Hin.
      destruct Hin as [Hin|(d & Hd & _ & ->)]; [exists e'; auto|].
      exists d. auto. }
    split.
    { unfold distinct_entry_ids. simpl. intros Hnd _.
      rewrite update_one_map; [exact Hnd | reflexivity]. }
    reflexivity.
  - unfold update_payment_status. run_monad.
    destruct (Collection.find_one _ (credit_entries s)) as [e|] eqn:F;
      simpl; [|now left].
    rewrite (find_one_update_one (entry_with_id id) (set_payment payment));
      [|intros d Hd; exact Hd].
    rewrite F. simpl.
    right; right; right; right.
    exists (customer_id e).
    exists (mkDb (customers s)
                 (Collection.update_one (entry_with_id id)
                    (set_payment payment) (credit_entries s))).
    split; [reflexivity|].
    split.
    { intros cid' Hne. unfold entries_of. simpl.
      apply filter_update_one_elsewhere; [reflexivity|].
      intros d Hd. rewrite F in Hd. injection Hd as <-.
      unfold entry_of_customer. apply String.eqb_neq. now apply not_eq_sym. }
    split.
    { simpl. intros e' Hin. left. apply in_update_one in Hin.
      destruct Hin as [Hin|(d & Hd & _ & ->)]; [exists e'; auto|].
      exists d. auto. }
    split.
    { unfold distinct_entry_ids. simpl. intros Hnd _.
      rewrite update_one_map; [exact Hnd | reflexivity]. }
    reflexivity.
  - unfold delete_credit_entry. run_monad.
    destruct (Collection.find_one _ (credit_entries s)) as [e|] eqn:F;
      simpl; [|now left].
    right; right; right; right.
    exists (customer_id e).
    exists (mkDb (customers s)
                 (snd (Collection.delete_one (entry_with_id id)
                         (credit_entries s)))).
    split; [reflexivity|].
    split.
    { intros cid' Hne. unfold entries_of. simpl.
      apply filter_delete_one_elsewhere.
      intros d Hd. rewrite F in Hd. injection Hd as <-.
      unfold entry_of_customer. apply String.eqb_neq. now apply not_eq_sym. }
    split.
    { simpl. intros e' Hin. left. exists e'. split; [|reflexivity].
      now apply in_delete_one in Hin. }
    split.
    { unfold distinct_entry_ids. simpl. intros Hnd _.
      now apply delete_one_keeps_nodup. }
    destruct (delete_one_match _ _ _ F) as [Hn _].
    destruct (Collection.delete_one _ (credit_entries s)) as [n rest].
    simpl in *. subst n. reflexivity.
  - now left.
Qed.

End StoreInvariants.

Section InvariantsKept.

Context {num : Type} `{Amount num}.

Lemma nodup_map_filter {A B} (key : A -> B) (p : A -> bool) (l : list A) :
  List.NoDup (List.map key l) ->
  List.NoDup (List.map key (List.filter p l)).
Proof.
  induction l as [|d rest IH]; simpl; [auto|].
  intros Hnd. inversion Hnd as [|? ? Hnotin Hnd']; subst.
  destruct (p d); simpl; [|now apply IH].
  constructor; [|now apply IH].
  intros Hin. apply Hnotin. apply in_map_iff in Hin.
  destruct Hin as (x & Hx & Hin). apply filter_In in Hin.
  apply in_map_iff. exists x. tauto.
Qed.

Lemma customer_ids_after_recalculation (cid : string) (mid : db num) :
  List.map c_id (customers (snd (update_customer_totals cid mid)))
  = List.map c_id (customers mid).
Proof.
  rewrite update_customer_totals_run. simpl.
  apply update_one_map. reflexivity.
Qed.

Lemma no_orphans_step (r : request) (s : db num) :
  no_orphans s -> no_orphans (snd (handle r s)).
Proof.
  intros Hno.
  destruct (handle_effect r s)
    as [->|[(g & body & c & _ & _ & _ & ->)|[(id & u & ->)|[(id & ->)|
        (cid & mid & Hcs & _ & Hes & _ & ->)]]]].
  - exact Hno.
  - intros e Hin. simpl in *. unfold Collection.insert_one.
    rewrite map_app. apply in_or_app. left. now apply Hno.
  - intros e Hin. simpl in *.
    rewrite update_one_map; [now apply Hno | reflexivity].
  - intros e Hin. simpl in *. apply delete_many_spec in Hin.
    destruct Hin as [Hin Hq].
    specialize (Hno e Hin). apply in_map_iff in Hno.
    destruct Hno as (c & Hc & Hin').
    apply in_map_iff. exists c. split; [exact Hc|].
    apply in_delete_one_kept; [|exact Hin'].
    unfold customer_with_id. rewrite Hc. exact Hq.
  - intros e Hin. rewrite customer_ids_after_recalculation, Hcs.
    rewrite update_customer_totals_run in Hin. simpl in Hin.
    destruct (Hes e Hin) as [(e0 & Hin0 & ->)|Hc]; [now apply Hno|exact Hc].
Qed.

(** X11: referential integrity is an invariant of the service, with no
    assumption on the store or on the generated ids: if every entry names
    a stored customer, it does so after every request and after every
    sequence of requests. *)
Theorem no_orphans_kept
        (s : db num) (r : request) (rs : list request) :
  no_orphans s ->
  no_orphans (snd (handle r s)) /\ no_orphans (run rs s).
Proof.
  intros Hno. split; [now apply no_orphans_step|].
  revert s Hno. unfold run.
  induction rs as [|r' rs IH]; intros s Hno; simpl; [exact Hno|].
  apply IH. now apply no_orphans_step.
Qed.

(** X12: entry ids stay distinct as long as every entry creation draws an id
    no stored entry carries. *)
Theorem distinct_entry_ids_handle (r : request) (s : db num) :
  distinct_entry_ids s ->
  draws_fresh_entry_id r s ->
  distinct_entry_ids (snd (handle r s)).
Proof.
  intros Hnd Hfresh.
  destruct (handle_effect r s)
    as [->|[(g & body & c & _ & _ & _ & ->)|[(id & u & ->)|[(id & ->)|
        (cid & mid & _ & _ & _ & Hids & ->)]]]].
  - exact Hnd.
  - exact Hnd.
  - exact Hnd.
  - unfold distinct_entry_ids, Collection.delete_many. simpl.
    now apply nodup_map_filter.
  - exact (Hids Hnd Hfresh).
Qed.

Lemma coherent_record_kept
      (s s' : db num) (c : Customer num) :
  entries_of (c_id c) s' = entries_of (c_id c) s ->
  totals c = totals (recalculated (c_id c) s c) ->
  totals c = totals (recalculated (c_id c) s' c).
Proof.
  intros He Ht. now rewrite (recalculated_same_entries _ s' s c He).
Qed.

(** The step of the invariant: a request that draws a fresh id when it
    creates a customer takes a well-formed store to a well-formed store. *)
Lemma well_formed_step (r : request) (s : db num) :
  well_formed s ->
  draws_fresh_id r s ->
  well_formed (snd (handle r s)).
Proof.
  intros (Hnd & Hno & Hco) Hfresh.
  split; [now apply distinct_customer_ids_handle|].
  split; [now apply no_orphans_step|].
  destruct (handle_effect r s)
    as [->|[(g & body & c & -> & Hid & Hz & ->)|[(id & u & ->)|[(id & ->)|
        (cid & mid & Hcs & Helse & _ & _ & ->)]]]].
  - exact Hco.
  - intros c' Hin. simpl in Hin. unfold Collection.insert_one in Hin.
    apply in_app_or in Hin. destruct Hin as [Hin|[<-|[]]].
    + apply (coherent_record_kept s); [reflexivity | now apply Hco].
    + assert (He : entries_of (c_id c)
                     (mkDb (Collection.insert_one c (customers s))
                           (credit_entries s)) = []).
      { apply entries_of_none. simpl. intros e Hin Heq.
        simpl in Hfresh. apply Hfresh. rewrite <- Hid, <- Heq.
        now apply Hno. }
      destruct (recalculated_no_entries _ _ c He) as (H1 & H2 & H3).
      destruct Hz as (Z1 & Z2 & Z3).
      unfold totals. now rewrite H1, H2, H3, Z1, Z2, Z3.
  - intros c' Hin. simpl in Hin. apply in_update_one in Hin.
    destruct Hin as [Hin|(c0 & Hin0 & _ & ->)].
    + apply (coherent_record_kept s); [reflexivity | now apply Hco].
    + exact (Hco c0 Hin0).
  - intros c' Hin. simpl in Hin.
    assert (Hne : c_id c' <> id)
      by (now apply (delete_one_removes_id id (customers s))).
    apply in_delete_one in Hin.
    apply (coherent_record_kept s); [|now apply Hco].
    unfold entries_of. simpl. now apply entries_of_delete_many_other.
  - intros c' Hin.
    rewrite update_customer_totals_run in Hin. simpl in Hin.
    destruct (String.eqb (c_id c') cid) eqn:E.
    + apply String.eqb_eq in E.
      unfold distinct_customer_ids in Hnd. rewrite <- Hcs in Hnd.
      destruct (owner_after_update_one cid (recalculated cid mid)
                  (customers mid) c' ltac:(reflexivity) Hnd Hin E)
        as (c0 & _ & Hc0 & ->).
      simpl. rewrite Hc0. reflexivity.
    + assert (Hin0 : In c' (customers s)).
      { rewrite <- Hcs.
        apply (in_update_one_other (customer_with_id cid)
                 (recalculated cid mid)); auto. }
      apply String.eqb_neq in E.
      apply (coherent_record_kept s); [|now apply Hco].
      exact (Helse (c_id c') E).
Qed.

Lemma well_formed_empty : well_formed (empty_db (num := num)).
Proof.
  split; [constructor|]. split; intros x [].
Qed.

(** X13: every store reached from a well-formed one (the empty store is
    one) by requests whose customer creations draw fresh ids has distinct
    customer ids, no orphan entries, and on every customer, not only on
    the one a request recalculates, the totals of its first 1000 entries:
    the cache never drifts from the entries when requests are handled one
    after the other. *)
Theorem well_formed_run (rs : list request) (s : db num) :
  well_formed s ->
  fresh_run rs s ->
  well_formed (run rs s) /\
  (forall c, In c (customers (run rs s)) ->
     total_credit c
     = py_sum (List.map amount (fetched_entries (c_id c) (run rs s))) /\
     total_paid c
     = py_sum (List.map paid_amount
                 (fetched_entries (c_id c) (run rs s))) /\
     outstanding_balance c = sub (total_credit c) (total_paid c)).
Proof.
  intros Hwf Hfresh.
  assert (Hrun : well_formed (run rs s)).
  { revert s Hwf Hfresh. unfold run.
    induction rs as [|r rs IH]; intros s Hwf Hfresh; simpl; [exact Hwf|].
    destruct Hfresh as [Hr Hrs].
    apply IH; [now apply well_formed_step | exact Hrs]. }
  split; [exact Hrun|].
  intros c Hin. destruct Hrun as (_ & _ & Hco).
  specialize (Hco c Hin). unfold totals in Hco. simpl in Hco.
  injection Hco as H1 H2 H3.
  split; [exact H1|]. split; [exact H2|].
  rewrite H3. f_equal; symmetry; assumption.
Qed.

End InvariantsKept.

(** * Repeating an update *)

Section Repeating.

Context {num : Type} `{Amount num}.

Lemma update_credit_entry_run
      (id : string) (u : CreditEntryUpdate num) (s : db num)
      (e : CreditEntry num) :
  Collection.find_one (entry_with_id id) (credit_entries s) = Some e ->
  update_credit_entry id u s
  = (inr (set_update_data u e),
     after_entry_update id (set_update_data u) (customer_id e) s).
Proof.
  intros F. unfold update_credit_entry, after_entry_update. run_monad.
  rewrite F. simpl.
  rewrite (find_one_update_one (entry_with_id id) (set_update_data u));
    [|intros d Hd; exact Hd].
  rewrite F. reflexivity.
Qed.

Lemma update_payment_status_run
      (id : string) (p : PaymentUpdate num) (s : db num)
      (e : CreditEntry num) :
  Collection.find_one (entry_with_id id) (credit_entries s) = Some e ->
  update_payment_status id p s
  = (inr (set_payment p e),
     after_entry_update id (set_payment p) (customer_id e) s).
Proof.
  intros F. unfold update_payment_status, after_entry_update. run_monad.
  rewrite F. simpl.
  rewrite (find_one_update_one (entry_with_id id) (set_payment p));
    [|intros d Hd; exact Hd].
  rewrite F. reflexivity.
Qed.

Lemma after_entry_update_twice
      (id : string) (set : CreditEntry num -> CreditEntry num)
      (cid : string) (s : db num) :
  (forall d, e_id (set d) = e_id d) ->
  (forall d, set (set d) = set d) ->
  after_entry_update id set cid (after_entry_update id set cid s)
  = after_entry_update id set cid s.
Proof.
  intros Hid Hset. unfold after_entry_update.
  rewrite !update_customer_totals_run. simpl.
  assert (Hq : forall d, entry_with_id id d = true ->
                         entry_with_id id (set d) = true).
  { intros d Hd. unfold entry_with_id in *. now rewrite Hid. }
  rewrite (update_one_idempotent (entry_with_id id) set _ Hq Hset).
  f_equal.
  set (mid := mkDb (customers s)
                   (Collection.update_one (entry_with_id id) set
                      (credit_entries s))).
  change (recalculated cid
            (mkDb (Collection.update_one (customer_with_id cid)
                     (recalculated cid mid) (customers s))
                  (credit_entries mid)))
    with (recalculated cid mid).
  apply update_one_idempotent; [intros d Hd; exact Hd | reflexivity].
Qed.

Lemma find_one_after_entry_update
      (id : string) (set : CreditEntry num -> CreditEntry num)
      (cid : string) (s : db num) :
  (forall d, e_id (set d) = e_id d) ->
  Collection.find_one (entry_with_id id)
    (credit_entries (after_entry_update id set cid s))
  = option_map set
      (Collection.find_one (entry_with_id id) (credit_entries s)).
Proof.
  intros Hid. unfold after_entry_update.
  rewrite update_customer_totals_run. simpl.
  apply find_one_update_one.
  intros d Hd. unfold entry_with_id in *. now rewrite Hid.
Qed.

(** X14: the payment update is idempotent: sent a second time with the same
    body it gives the same answer and leaves the same store as the first
    time, whether the entry exists or not. *)
Theorem update_payment_status_idempotent
        (id : string) (p : PaymentUpdate num) (s : db num) :
  let once := update_payment_status id p s in
  update_payment_status id p (snd once) = once.
Proof.
  intros once. subst once.
  destruct (Collection.find_one (entry_with_id id) (credit_entries s))
    as [e|] eqn:F.
  - rewrite (update_payment_status_run id p s e F). simpl.
    assert (F' : Collection.find_one (entry_with_id id)
                   (credit_entries
                      (after_entry_update id (set_payment p) (customer_id e) s))
                 = Some (set_payment p e)).
    { rewrite find_one_after_entry_update; [|reflexivity]. now rewrite F. }
    rewrite (update_payment_status_run id p _ _ F'). simpl.
    f_equal. apply after_entry_update_twice; reflexivity.
  - assert (E : update_payment_status id p s
                = (inl (HTTPException 404 "Credit entry not found"), s)).
    { unfold update_payment_status. run_monad. now rewrite F. }
    rewrite E. simpl. exact E.
Qed.

Lemma set_update_data_twice (u : CreditEntryUpdate num) (e : CreditEntry num) :
  set_update_data u (set_update_data u e) = set_update_data u e.
Proof.
  unfold set_update_data. simpl.
  destruct (eu_amount u), (eu_description u), (eu_date u), (eu_is_paid u),
    (eu_paid_amount u); reflexivity.
Qed.

(** X15: the partial update is idempotent: sent a second time with the same
    body it gives the same answer and leaves the same store as the first
    time, whether the entry exists or not. *)
Theorem update_credit_entry_idempotent
        (id : string) (u : CreditEntryUpdate num) (s : db num) :
  let once := update_credit_entry id u s in
  update_credit_entry id u (snd once) = once.
Proof.
  intros once. subst once.
  destruct (Collection.find_one (entry_with_id id) (credit_entries s))
    as [e|] eqn:F.
  - rewrite (update_credit_entry_run id u s e F). simpl.
    assert (F' : Collection.find_one (entry_with_id id)
                   (credit_entries
                      (after_entry_update id (set_update_data u)
                         (customer_id e) s))
                 = Some (set_update_data u e)).
    { rewrite find_one_after_entry_update; [|reflexivity]. now rewrite F. }
    rewrite (update_credit_entry_run id u _ _ F'). simpl.
    rewrite set_update_data_twice.
    f_equal. apply after_entry_update_twice;
      [reflexivity | apply set_update_data_twice].
  - assert (E : update_credit_entry id u s
                = (inl (HTTPException 404 "Credit entry not found"), s)).
    { unfold update_credit_entry. run_monad. now rewrite F. }
    rewrite E. simpl. exact E.
Qed.

End Repeating.

(** * Cascade, listing after creation, counting *)

Section CascadeAndCounts.

Context {num : Type} `{Amount num}.

(** X16: a successful customer deletion touches nothing that belongs to
    another customer: every record with another id is still stored, as it
    was; for every other id the entries are the same, in the same order;
    and the number of entries drops by exactly the number the deleted id
    was named by. *)
Theorem delete_customer_frame (id : string) (s : db num) (c : Customer num) :
  Collection.find_one (customer_with_id id) (customers s) = Some c ->
  let s' := snd (delete_customer id s) in
  (forall x, customer_with_id id x = false ->
             (In x (customers s') <-> In x (customers s))) /\
  (forall cid, cid <> id -> entries_of cid s' = entries_of cid s) /\
  List.length (credit_entries s') + List.length (entries_of id s)
  = List.length (credit_entries s).
Proof.
  intros F s'. subst s'.
  destruct (delete_one_match _ _ _ F) as [Hn _].
  pose proof (@in_delete_one _ (customer_with_id (num := num) id)
                (customers s)) as Hsub.
  pose proof (fun x Hx => @in_delete_one_kept _ (customer_with_id id)
                            (customers s) x Hx) as Hkept.
  unfold delete_customer. run_monad.
  destruct (Collection.delete_one _ (customers s)) as [n rest].
  simpl in *. subst n. simpl.
  split; [intros x Hx; split; auto|].
  split.
  - intros cid Hne. unfold entries_of. simpl.
    now apply entries_of_delete_many_other.
  - unfold entries_of, Collection.delete_many.
    rewrite Nat.add_comm. apply filter_length.
Qed.

Lemma entries_of_insert_own
      (e : CreditEntry num) (es : list (CreditEntry num)) :
  List.filter (entry_of_customer (customer_id e)) (Collection.insert_one e es)
  = (List.filter (entry_of_customer (customer_id e)) es ++ [e])%list.
Proof.
  unfold Collection.insert_one. rewrite filter_app. simpl.
  unfold entry_of_customer at 2. now rewrite String.eqb_refl.
Qed.

(** X17: an entry created for an existing customer that owns fewer than 1000
    entries is on the customer's listing right afterwards, and the listing
    is one entry longer than the number owned before. *)
Theorem create_credit_entry_then_listed
        (g : fresh) (entry : CreditEntryCreate num) (s : db num)
        (c : Customer num) :
  let cid := ec_customer_id entry in
  Collection.find_one (customer_with_id cid) (customers s) = Some c ->
  List.length (entries_of cid s) < fetch_cap ->
  let s' := snd (create_credit_entry g entry s) in
  exists e page,
    fst (create_credit_entry g entry s) = inr e /\
    get_credit_entries cid s' = (inr page, s') /\
    In e page /\
    List.length page = S (List.length (entries_of cid s)).
Proof.
  intros cid F Hlt s'. subst cid s'.
  set (e := mkCreditEntry (uuid4 g) (ec_customer_id entry) (ec_amount entry)
                          (ec_description entry) (ec_date entry)
                          (ec_image_data entry) false zero (utcnow g)).
  set (s' := snd (update_customer_totals (ec_customer_id entry)
                    (mkDb (customers s)
                          (Collection.insert_one e (credit_entries s))))).
  assert (Hrun : create_credit_entry g entry s = (inr e, s')).
  { unfold create_credit_entry. run_monad. now rewrite F. }
  rewrite Hrun. cbv [fst snd].
  assert (Hown : entries_of (ec_customer_id entry) s'
                 = (entries_of (ec_customer_id entry) s ++ [e])%list).
  { exact (entries_of_insert_own e (credit_entries s)). }
  exists e.
  exists (Collection.to_list fetch_cap
            (Collection.sort_desc date (entries_of (ec_customer_id entry) s'))).
  split; [reflexivity|]. split; [reflexivity|].
  pose proof (sort_desc_permutation date
                (entries_of (ec_customer_id entry) s')) as Hperm.
  assert (Hlen : List.length
                   (Collection.sort_desc date
                      (entries_of (ec_customer_id entry) s'))
                 = S (List.length (entries_of (ec_customer_id entry) s))).
  { rewrite <- (Permutation_length Hperm), Hown, length_app. simpl. lia. }
  unfold Collection.to_list. rewrite firstn_all2 by lia.
  split; [|exact Hlen].
  apply (Permutation_in e Hperm). rewrite Hown.
  apply in_or_app. right. simpl. auto.
Qed.

Lemma list_sum_map_add {A} (a b : A -> nat) (l : list A) :
  List.list_sum (List.map (fun k => a k + b k) l)
  = List.list_sum (List.map a l) + List.list_sum (List.map b l).
Proof.
  induction l as [|k l IH]; simpl; [reflexivity|]. rewrite IH. lia.
Qed.

Lemma list_sum_map_zero {A} (l : list A) :
  List.list_sum (List.map (fun _ => 0) l) = 0.
Proof. induction l; simpl; auto. Qed.

(** Among distinct keys, exactly one is the key of a given document. *)
Lemma one_owner (k0 : string) (ks : list string) :
  List.NoDup ks ->
  List.list_sum
    (List.map (fun k => if String.eqb k0 k then 1 else 0) ks)
  = if in_dec string_dec k0 ks then 1 else 0.
Proof.
  induction ks as [|k ks IH]; simpl; [reflexivity|].
  intros Hnd. inversion Hnd as [|? ? Hnotin Hnd']; subst.
  rewrite (IH Hnd').
  destruct (String.eqb k0 k) eqn:E.
  - apply String.eqb_eq in E. subst k.
    destruct (string_dec k0 k0) as [Heq|Hne]; [|now elim Hne].
    destruct (in_dec string_dec k0 ks); [contradiction | reflexivity].
  - apply String.eqb_neq in E.
    destruct (string_dec k k0) as [Heq|Hne]; [now elim E|].
    destruct (in_dec string_dec k0 ks); reflexivity.
Qed.

Lemma count_by_owner (ks : list string) (es : list (CreditEntry num)) :
  List.NoDup ks ->
  (forall e, In e es -> In (customer_id e) ks) ->
  List.length es
  = List.list_sum
      (List.map
         (fun k => List.length (List.filter (entry_of_customer k) es)) ks).
Proof.
  intros Hnd. induction es as [|e es IH]; intros Hall; simpl.
  - now rewrite list_sum_map_zero.
  - rewrite (IH (fun x Hx => Hall x (or_intror Hx))).
    rewrite (map_ext
               (fun k =>
                  List.length
                    (if entry_of_customer k e
                     then e :: List.filter (entry_of_customer k) es
                     else List.filter (entry_of_customer k) es))
               (fun k =>
                  (if String.eqb (customer_id e) k then 1 else 0)
                  + List.length (List.filter (entry_of_customer k) es))).
    + rewrite list_sum_map_add, (one_owner _ _ Hnd).
      destruct (in_dec string_dec (customer_id e) ks) as [Hy|Hn];
        [reflexivity|].
      elim Hn. apply Hall. now left.
    + intros k. unfold entry_of_customer at 1.
      destruct (String.eqb (customer_id e) k); reflexivity.
Qed.

(** X18: in a store with distinct customer ids and no orphan entries, the
    [total_credit_entries] of the dashboard is the number of entries each
    customer owns, summed over all customers, and [total_customers] is the
    number of customers; neither is affected by the fetch cap. *)
Theorem dashboard_counts (s : db num) :
  distinct_customer_ids s ->
  no_orphans s ->
  exists st,
    get_dashboard_stats s = (inr st, s) /\
    total_customers st = List.length (customers s) /\
    total_credit_entries st = entries_across_customers s.
Proof.
  intros Hnd Hno. eexists. split; [reflexivity|]. simpl.
  split; [reflexivity|].
  unfold Collection.count_documents, entries_across_customers, entries_of.
  rewrite (count_by_owner (List.map c_id (customers s)) (credit_entries s)
             Hnd Hno).
  now rewrite map_map.
Qed.

End CascadeAndCounts.

(** * Concrete runs, over integer amounts *)

Local Open Scope Z_scope.

(** The end-to-end scenario: two entries of 5000 and 2500 give a total
    credit and an outstanding balance of 7500. *)
Example scenario_totals :
  List.map totals (customers Sample.two_entries) = [(7500, 0, 7500)].
Proof. reflexivity. Qed.

(** Raising the first amount from 5000 to 6500 raises the total by 1500;
    paying 6500 on it then leaves 2500 outstanding. *)
Example scenario_amount_then_payment :
  let u := mkCreditEntryUpdate (Some 6500) None None None None in
  let s1 := run [PUT_credit_entry "e1" u] Sample.two_entries in
  let s2 := run [PATCH_payment "e1" (mkPaymentUpdate true 6500)] s1 in
  List.map totals (customers s1) = [(9000, 0, 9000)] /\
  List.map totals (customers s2) = [(9000, 6500, 2500)].
Proof. split; reflexivity. Qed.

(** Listing is by [date], latest first. *)
Example scenario_listing :
  fst (get_credit_entries "c1" Sample.two_entries)
  = inr (List.rev (credit_entries Sample.two_entries)).
Proof. reflexivity. Qed.

(** The scenario store after the payment of the first entry. *)
Lemma entry_mutation_recalculates_owner_witness :
  let s := Sample.two_entries in
  let r := PATCH_payment "e1" (mkPaymentUpdate true 5000) in
  let e := mkCreditEntry "e1" "c1" 5000 (Some "Grocery supplies") 20 None
                         true 5000 21 in
  let c := mkCustomer "c1" "Rajesh Kumar" (Some "9876543210")
                      (Some "123 Main Street, Delhi") 10 7500 5000 2500 in
  distinct_customer_ids s /\
  entry_mutation_owner r s = Some "c1" /\
  fst (handle r s) = inr (EntryR e) /\
  In c (customers (snd (handle r s))) /\
  total_credit c
  = py_sum (List.map amount (entries_of "c1" (snd (handle r s)))) /\
  total_paid c
  = py_sum (List.map paid_amount (entries_of "c1" (snd (handle r s)))) /\
  outstanding_balance c = sub (total_credit c) (total_paid c).
Proof.
  intros s r e c.
  assert (Hnd : distinct_customer_ids s).
  { unfold distinct_customer_ids. vm_compute.
    constructor; [intros []|constructor]. }
  assert (Hown : entry_mutation_owner r s = Some "c1") by reflexivity.
  assert (Hok : fst (handle r s) = inr (EntryR e)) by reflexivity.
  assert (Hin : In c (customers (snd (handle r s)))) by (vm_compute; auto).
  assert (Hle : (List.length (entries_of "c1" (snd (handle r s)))
                 <= fetch_cap)%nat) by (vm_compute; lia).
  destruct (entry_mutation_recalculates_owner r s "c1" (EntryR e) c
              Hnd Hown Hok Hin eq_refl) as (_ & _ & Hob & _ & Hall).
  destruct (Hall Hle) as [Htc Htp].
  repeat split; assumption.
Defined.

(** C1 as stated fails beyond the fetch cap: a customer with 1000 entries
    of amount 1 receives one more.  The creation succeeds, the customer then
    owns 1001 entries whose amounts sum to 1001, and the stored
    [total_credit] is 1000. *)
Lemma entry_totals_beyond_fetch_cap :
  let s := Sample.many_entries 1000 in
  let r := Sample.unit_entry 1001 in
  let s' := snd (handle r s) in
  let c := mkCustomer "c1" "Rajesh Kumar" (Some "9876543210")
                      (Some "123 Main Street, Delhi") 0 1000 0 1000 in
  distinct_customer_ids s /\
  entry_mutation_owner r s = Some "c1" /\
  (exists resp, fst (handle r s) = inr resp) /\
  customers s' = [c] /\
  List.length (entries_of "c1" s') = 1001%nat /\
  py_sum (List.map amount (entries_of "c1" s')) = 1001 /\
  total_credit c <> py_sum (List.map amount (entries_of "c1" s')).
Proof.
  intros s r s' c.
  assert (Hown : entry_mutation_owner r s = Some "c1"%string) by reflexivity.
  let v := eval vm_compute in s in
    assert (Es : s = v) by (vm_compute; reflexivity).
  subst s'. clearbody s. subst s.
  split; [unfold distinct_customer_ids; simpl;
          constructor; [intros []|constructor]|].
  split; [exact Hown|].
  split; [eexists; vm_compute; reflexivity|].
  split; [vm_compute; reflexivity|].
  split; [vm_compute; reflexivity|].
  assert (Hsum : forall x, x = 1001 -> total_credit c <> x)
    by (intros x ->; discriminate).
  split; [|apply Hsum]; vm_compute; reflexivity.
Qed.

Lemma balance_invariant_witness :
  let s := Sample.two_entries in
  let r := PATCH_payment "e1" (mkPaymentUpdate true 5000) in
  all_balanced s /\
  all_balanced (snd (handle r s)) /\
  all_balanced (run [r; DELETE_credit_entry "e2"] s).
Proof.
  intros s r.
  assert (Hb : all_balanced s).
  { intros c Hin. vm_compute in Hin. destruct Hin as [<-|[]]. reflexivity. }
  destruct (balance_invariant s r [r; DELETE_credit_entry "e2"] "c1" Hb)
    as (Hr & _ & Hrs & _).
  repeat split; assumption.
Defined.

Lemma get_dashboard_stats_spec_witness :
  let s := Sample.two_entries in
  (List.length (customers s) <= fetch_cap)%nat /\
  get_dashboard_stats s = (inr (mkStats 1 2 7500 7500 0), s).
Proof.
  intros s.
  assert (Hle : (List.length (customers s) <= fetch_cap)%nat)
    by (vm_compute; lia).
  split; [exact Hle|].
  exact (proj2 (get_dashboard_stats_spec s) Hle).
Defined.

(** C4 as stated fails beyond the fetch cap: with 1001 customers, each
    owing 1 on a single entry, the dashboard counts 1001 customers and 1001
    entries but reports 1000 as total credit and as total outstanding, where
    the sums over all customers are 1001. *)
Lemma dashboard_sums_beyond_fetch_cap :
  let s := Sample.many_customers 1001 in
  get_dashboard_stats s = (inr (mkStats 1001 1001 1000 1000 0), s) /\
  py_sum (List.map total_credit (customers s)) = 1001 /\
  py_sum (List.map outstanding_balance (customers s)) = 1001 /\
  (forall st, fst (get_dashboard_stats s) = inr st ->
              stats_total_credit st
              <> py_sum (List.map total_credit (customers s)) /\
              stats_total_outstanding st
              <> py_sum (List.map outstanding_balance (customers s))).
Proof.
  intros s.
  let v := eval vm_compute in s in
    assert (Es : s = v) by (vm_compute; reflexivity).
  clearbody s. subst s.
  split; [vm_compute; reflexivity|].
  assert (Htc : forall x, x = 1001 -> 1000 <> x) by (intros x ->; discriminate).
  split; [vm_compute; reflexivity|].
  split; [vm_compute; reflexivity|].
  intros st Hst. vm_compute in Hst. injection Hst as <-.
  split; apply Htc; vm_compute; reflexivity.
Qed.

Lemma delete_customer_cascade_witness :
  let s := Sample.two_entries in
  let s' := snd (delete_customer "c1" s) in
  distinct_customer_ids s /\
  fst (delete_customer "c1" s) = inr "Customer deleted successfully"%string /\
  s' = empty_db /\
  get_credit_entries "c1" s' = (inr [], s') /\
  (forall c', In c' (customers s') -> c_id c' <> "c1"%string).
Proof.
  intros s s'.
  assert (Hnd : distinct_customer_ids s).
  { unfold distinct_customer_ids. vm_compute.
    constructor; [intros []|constructor]. }
  pose proof (delete_customer_cascade "c1" s) as W.
  change (Collection.find_one (customer_with_id "c1") (customers s))
    with (Some (mkCustomer "c1" "Rajesh Kumar" (Some "9876543210"%string)
                  (Some "123 Main Street, Delhi"%string) 10 7500 0 7500))
    in W.
  cbv beta zeta iota in W.
  destruct W as (Hok & _ & _ & Hgone & _ & Hlist).
  split; [exact Hnd|]. split; [exact Hok|].
  split; [reflexivity|]. split; [exact Hlist|].
  exact (Hgone Hnd).
Defined.

Lemma update_credit_entry_frame_witness :
  let s := Sample.two_entries in
  let u := mkCreditEntryUpdate
             None (Some "Grocery supplies + extra items"%string)
             None None None in
  let e' := mkCreditEntry "e1" "c1" 5000
                          (Some "Grocery supplies + extra items"%string)
                          20 None false 0 21 in
  fst (update_credit_entry "e1" u s) = inr e' /\
  amount e' = 5000 /\ date e' = 20 /\ is_paid e' = false /\
  paid_amount e' = 0.
Proof.
  intros s u e'.
  pose proof (update_credit_entry_frame "e1" u s) as W.
  change (Collection.find_one (entry_with_id "e1") (credit_entries s))
    with (Some (mkCreditEntry "e1" "c1" 5000 (Some "Grocery supplies"%string)
                  20 None false 0 21)) in W.
  cbv beta zeta iota in W.
  destruct W as (e1 & Hok & _ & _ & _ & _ & _ & _ & _ & _ & _ & _ & Hkeep & _).
  assert (He : e1 = e').
  { change (fst (update_credit_entry "e1" u s))
      with (@inr error (CreditEntry Z) e') in Hok.
    injection Hok as <-. reflexivity. }
  subst e1.
  destruct (Hkeep eq_refl eq_refl eq_refl eq_refl) as (Ha & Hd & Hp & Hpa).
  split; [exact Hok|].
  repeat split; assumption.
Defined.

(** C8 as stated fails on the empty name: the body [{"name": ""}] is
    accepted and a customer with an empty name is stored. *)
Lemma post_customers_accepts_empty_name :
  let body := mkCustomerBody (Some ""%string) None None in
  let c := mkCustomer "c1" "" None None 10 0 0 0 in
  post_customers (mkFresh "c1" 10) body empty_db = (inr c, mkDb [c] []) /\
  ~ (exists err,
        fst (post_customers (num := Z) (mkFresh "c1" 10) body empty_db)
        = inl err /\ ValidationError err).
Proof.
  intros body c. split; [reflexivity|].
  intros (err & Herr & _). discriminate Herr.
Qed.

Lemma get_credit_entries_unknown_customer_witness :
  let s := Sample.two_entries in
  Collection.find_one (customer_with_id "nobody") (customers s) = None /\
  (forall e, In e (credit_entries s) -> customer_id e <> "nobody"%string) /\
  get_credit_entries "nobody" s = (inr [], s).
Proof.
  intros s.
  assert (Hno : forall e, In e (credit_entries s) ->
                          customer_id e <> "nobody"%string).
  { intros e Hin. vm_compute in Hin.
    destruct Hin as [<-|[<-|[]]]; discriminate. }
  split; [reflexivity|]. split; [exact Hno|].
  exact (proj1 (get_credit_entries_unknown_customer "nobody" s [] Hno)).
Defined.

Lemma no_entries_zero_totals_witness :
  let s0 := run [POST_customers (mkFresh "c1" 10) Sample.rajesh] empty_db in
  let s1 := run [POST_credit_entries (mkFresh "e1" 21) (Sample.grocery "c1")]
                s0 in
  let c0 := mkCustomer "c1" "Rajesh Kumar" (Some "9876543210"%string)
                       (Some "123 Main Street, Delhi"%string) 10 0 0 0 in
  (entries_of "c1" s0 = [] /\
   Collection.find_one (customer_with_id "c1")
     (customers (snd (update_customer_totals "c1" s0))) = Some c0) /\
  (List.length (entries_of "c1" s1) = 1%nat /\
   total_credit (List.hd c0 (customers s1)) = 5000 /\
   fst (delete_credit_entry "e1" s1)
   = inr "Credit entry deleted successfully"%string /\
   snd (delete_credit_entry "e1" s1) = s0 /\
   zero_totals (List.hd c0 (customers (snd (delete_credit_entry "e1" s1))))).
Proof.
  intros s0 s1 c0. split.
  - assert (F : Collection.find_one (customer_with_id "c1") (customers s0)
                = Some c0) by reflexivity.
    destruct (no_entries_zero_totals "c1" s0 c0 F) as [Hrec _].
    destruct (Hrec eq_refl) as [(c & Hfind & Hz & _) _].
    split; [reflexivity|].
    rewrite Hfind. f_equal.
    change (Collection.find_one (customer_with_id "c1")
              (customers (snd (update_customer_totals "c1" s0))))
      with (Some c0) in Hfind.
    now injection Hfind.
  - pose (e := mkCreditEntry "e1" "c1" 5000 (Some "Grocery supplies"%string)
                             20 None false 0 21).
    pose (c1 := mkCustomer "c1" "Rajesh Kumar" (Some "9876543210"%string)
                           (Some "123 Main Street, Delhi"%string)
                           10 5000 0 5000).
    assert (F : Collection.find_one (customer_with_id "c1") (customers s1)
                = Some c1) by reflexivity.
    destruct (no_entries_zero_totals "c1" s1 c1 F) as [_ Hdel].
    destruct (Hdel "e1" e eq_refl eq_refl) as (Hok & _ & (c & Hfind & Hz & _)).
    split; [reflexivity|]. split; [reflexivity|]. split; [exact Hok|].
    split; [reflexivity|].
    change (Collection.find_one (customer_with_id "c1")
              (customers (snd (delete_credit_entry "e1" s1))))
      with (Some c0) in Hfind.
    injection Hfind as <-. exact Hz.
Defined.

(** ** Concrete runs for the further properties *)

Lemma two_entries_well_formed : well_formed Sample.two_entries.
Proof.
  split; [|split].
  - unfold distinct_customer_ids. vm_compute.
    constructor; [intros []|constructor].
  - intros e Hin. vm_compute in Hin.
    destruct Hin as [<-|[<-|[]]]; vm_compute; auto.
  - intros c Hin. vm_compute in Hin. destruct Hin as [<-|[]].
    vm_compute. reflexivity.
Defined.

Lemma two_entries_distinct_entry_ids : distinct_entry_ids Sample.two_entries.
Proof.
  unfold distinct_entry_ids. vm_compute.
  repeat constructor; simpl; intuition discriminate.
Defined.

Lemma get_customer_after_create_witness :
  let g := mkFresh "c1" 1700000000123456 in
  let s' := snd (post_customers (num := Z) g Sample.rajesh empty_db) in
  body_name Sample.rajesh = Some "Rajesh Kumar"%string /\
  ~ In (uuid4 g) (List.map c_id (customers (empty_db (num := Z)))) /\
  exists c,
    get_customer "c1" s' = (inr c, s') /\
    c_id c = "c1"%string /\ name c = "Rajesh Kumar"%string /\
    phone c = Some "9876543210"%string /\
    address c = Some "123 Main Street, Delhi"%string /\ zero_totals c.
Proof.
  intros g s'.
  assert (Hname : body_name Sample.rajesh = Some "Rajesh Kumar"%string)
    by reflexivity.
  assert (Hfresh : ~ In (uuid4 g)
                     (List.map c_id (customers (empty_db (num := Z)))))
    by (simpl; tauto).
  split; [exact Hname|]. split; [exact Hfresh|].
  exact (proj1 (get_customer_after_create g Sample.rajesh empty_db
                  "Rajesh Kumar" Hname Hfresh)).
Defined.

(** Two entries of 2^1023 add up to 2^1024, which no float holds: the
    totals are then not finite.  Renaming that customer is answered with
    500, and the new name is in the store. *)
Lemma route_error_cases_witness :
  let finite := fun z : Z => Z.abs z <? 2 ^ 1024 in
  let big := fun id => mkCreditEntryCreate "c1" (2 ^ 1023) None 20 None in
  let s := run [ POST_customers (mkFresh "c1" 10) Sample.rajesh;
                 POST_credit_entries (mkFresh "e1" 21) (big "e1");
                 POST_credit_entries (mkFresh "e2" 31) (big "e2") ]
               empty_db in
  let r := PUT_customer "c1" (mkCustomerBody (Some "Rajesh K"%string)
                                None None) in
  fst (route finite r s) = inl InternalError /\
  List.map name (customers s) = ["Rajesh Kumar"%string] /\
  List.map name (customers (snd (route finite r s)))
  = ["Rajesh K"%string] /\
  exists resp,
    fst (handle r s) = inr resp /\ renders finite resp = false.
Proof.
  intros finite big s r.
  assert (Herr : fst (route finite r s) = inl InternalError)
    by (vm_compute; reflexivity).
  split; [exact Herr|].
  split; [vm_compute; reflexivity|].
  split; [vm_compute; reflexivity|].
  destruct (route_error_cases finite r s InternalError Herr)
    as [(_ & [H404|H422] & _)|(_ & resp & Hresp & Hrend & _)].
  - discriminate H404.
  - discriminate H422.
  - exists resp. auto.
Defined.

Lemma no_orphans_kept_witness :
  let s := Sample.two_entries in
  let r := DELETE_customer (num := Z) "c1" in
  let rs := [PATCH_payment "e1" (mkPaymentUpdate true 5000);
             DELETE_credit_entry "e2"] in
  no_orphans s /\ no_orphans (snd (handle r s)) /\ no_orphans (run rs s).
Proof.
  intros s r rs.
  assert (Hno : no_orphans s) by (apply two_entries_well_formed).
  split; [exact Hno|].
  exact (no_orphans_kept s r rs Hno).
Defined.

Lemma distinct_entry_ids_handle_witness :
  let s := Sample.two_entries in
  let r := POST_credit_entries (mkFresh "e3" 41) (Sample.hardware "c1") in
  distinct_entry_ids s /\ draws_fresh_entry_id r s /\
  distinct_entry_ids (snd (handle r s)).
Proof.
  intros s r.
  assert (Hfresh : draws_fresh_entry_id r s).
  { vm_compute. intros [Hx|[Hx|[]]]; discriminate. }
  split; [exact two_entries_distinct_entry_ids|]. split; [exact Hfresh|].
  exact (distinct_entry_ids_handle r s two_entries_distinct_entry_ids Hfresh).
Defined.

Lemma well_formed_run_witness :
  let rs := [ POST_customers (mkFresh "c1" 10) Sample.rajesh;
              POST_credit_entries (mkFresh "e1" 21) (Sample.grocery "c1");
              POST_credit_entries (mkFresh "e2" 31) (Sample.hardware "c1") ] in
  well_formed (empty_db (num := Z)) /\ fresh_run rs empty_db /\
  well_formed (run rs empty_db).
Proof.
  intros rs.
  assert (Hwf : well_formed (empty_db (num := Z)))
    by (apply well_formed_empty).
  assert (Hfresh : fresh_run rs empty_db) by (simpl; tauto).
  split; [exact Hwf|]. split; [exact Hfresh|].
  exact (proj1 (well_formed_run rs empty_db Hwf Hfresh)).
Defined.

Lemma delete_customer_frame_witness :
  let s := Sample.two_entries in
  let c := mkCustomer "c1" "Rajesh Kumar" (Some "9876543210"%string)
                      (Some "123 Main Street, Delhi"%string) 10 7500 0 7500 in
  let s' := snd (delete_customer "c1" s) in
  Collection.find_one (customer_with_id "c1") (customers s) = Some c /\
  (List.length (credit_entries s') + List.length (entries_of "c1" s)
   = List.length (credit_entries s))%nat.
Proof.
  intros s c s'.
  assert (F : Collection.find_one (customer_with_id "c1") (customers s)
              = Some c) by reflexivity.
  split; [exact F|].
  exact (proj2 (proj2 (delete_customer_frame "c1" s c F))).
Defined.

Lemma create_credit_entry_then_listed_witness :
  let s := Sample.two_entries in
  let g := mkFresh "e3" 41 in
  let entry := mkCreditEntryCreate "c1" 100 None 25 None in
  let c := mkCustomer "c1" "Rajesh Kumar" (Some "9876543210"%string)
                      (Some "123 Main Street, Delhi"%string) 10 7500 0 7500 in
  let s' := snd (create_credit_entry g entry s) in
  Collection.find_one (customer_with_id "c1") (customers s) = Some c /\
  (List.length (entries_of "c1" s) < fetch_cap)%nat /\
  exists e page,
    fst (create_credit_entry g entry s) = inr e /\
    get_credit_entries "c1" s' = (inr page, s') /\
    In e page /\ List.length page = 3%nat.
Proof.
  intros s g entry c s'.
  assert (F : Collection.find_one (customer_with_id "c1") (customers s)
              = Some c) by reflexivity.
  assert (Hlt : (List.length (entries_of "c1" s) < fetch_cap)%nat)
    by (vm_compute; lia).
  split; [exact F|]. split; [exact Hlt|].
  exact (create_credit_entry_then_listed g entry s c F Hlt).
Defined.

Lemma dashboard_counts_witness :
  let s := Sample.two_entries in
  distinct_customer_ids s /\ no_orphans s /\
  exists st,
    get_dashboard_stats s = (inr st, s) /\
    total_customers st = 1%nat /\ total_credit_entries st = 2%nat.
Proof.
  intros s.
  assert (Hnd : distinct_customer_ids s) by (apply two_entries_well_formed).
  assert (Hno : no_orphans s) by (apply two_entries_well_formed).
  split; [exact Hnd|]. split; [exact Hno|].
  exact (dashboard_counts s Hnd Hno).
Defined.

Lemma delete_credit_entry_spec_witness :
  let s := Sample.two_entries in
  let s' := snd (delete_credit_entry "e1" s) in
  distinct_entry_ids s /\
  fst (delete_credit_entry "e1" s)
  = inr "Credit entry deleted successfully"%string /\
  (exists c',
      Collection.find_one (customer_with_id "c1") (customers s') = Some c' /\
      total_credit c' = 2500 /\ total_paid c' = 0 /\
      outstanding_balance c' = 2500) /\
  exists err, delete_credit_entry "e1" s' = (inl err, s') /\ NotFound err.
Proof.
  intros s s'.
  pose proof (delete_credit_entry_spec "e1" s) as W.
  change (Collection.find_one (entry_with_id "e1") (credit_entries s))
    with (Some (mkCreditEntry "e1" "c1" 5000 (Some "Grocery supplies"%string)
                  20 None false 0 21)) in W.
  cbv beta zeta iota in W.
  destruct W as (Hok & _ & _ & _ & _ & _ & Hown & Hagain).
  unfold owner_recalculated in Hown.
  change (Collection.find_one (customer_with_id "c1") (customers s))
    with (Some (mkCustomer "c1" "Rajesh Kumar" (Some "9876543210"%string)
                  (Some "123 Main Street, Delhi"%string) 10 7500 0 7500))
    in Hown.
  destruct Hown as (c' & Hfind & Htc & Htp & Hob & _).
  vm_compute in Htc, Htp, Hob.
  split; [exact two_entries_distinct_entry_ids|]. split; [exact Hok|].
  split; [exists c'; auto|].
  exact (proj2 (Hagain two_entries_distinct_entry_ids)).
Defined.

Lemma update_payment_status_frame_witness :
  let s := Sample.two_entries in
  let p := mkPaymentUpdate true 5000 in
  let s' := snd (update_payment_status "e1" p s) in
  exists e' c',
    fst (update_payment_status "e1" p s) = inr e' /\
    is_paid e' = true /\ paid_amount e' = 5000 /\ amount e' = 5000 /\
    Collection.find_one (customer_with_id "c1") (customers s') = Some c' /\
    total_credit c' = 7500 /\ total_paid c' = 5000 /\
    outstanding_balance c' = 2500.
Proof.
  intros s p s'.
  pose proof (update_payment_status_frame "e1" p s) as W.
  change (Collection.find_one (entry_with_id "e1") (credit_entries s))
    with (Some (mkCreditEntry "e1" "c1" 5000 (Some "Grocery supplies"%string)
                  20 None false 0 21)) in W.
  cbv beta zeta iota in W.
  destruct W as (e' & Hok & _ & Hpaid & Hpa & Ham & _ & _ & _ & _ & _ & _
                 & Hown).
  unfold owner_recalculated in Hown.
  change (Collection.find_one (customer_with_id "c1") (customers s))
    with (Some (mkCustomer "c1" "Rajesh Kumar" (Some "9876543210"%string)
                  (Some "123 Main Street, Delhi"%string) 10 7500 0 7500))
    in Hown.
  destruct Hown as (c' & Hfind & Htc & Htp & Hob & _).
  vm_compute in Htc, Htp, Hob.
  exists e', c'. repeat split; assumption.
Defined.

Lemma create_credit_entry_spec_witness :
  let s := Sample.two_entries in
  let g := mkFresh "e3" 41 in
  let entry := mkCreditEntryCreate "c1" 100 None 25 None in
  exists e s' c',
    create_credit_entry g entry s = (inr e, s') /\
    is_paid e = false /\ paid_amount e = 0 /\
    Collection.find_one (customer_with_id "c1") (customers s') = Some c' /\
    total_credit c' = 7600 /\ total_paid c' = 0 /\
    outstanding_balance c' = 7600.
Proof.
  intros s g entry.
  pose proof (create_credit_entry_spec g entry s) as W.
  cbv zeta in W.
  change (Collection.find_one (customer_with_id (ec_customer_id entry))
            (customers s))
    with (Some (mkCustomer "c1" "Rajesh Kumar" (Some "9876543210"%string)
                  (Some "123 Main Street, Delhi"%string) 10 7500 0 7500))
    in W.
  cbv beta iota in W.
  destruct W as (e & s' & Hrun & _ & _ & Hpaid & Hpa & _ & _ & _ & _ & _ & _
                 & _ & _ & _ & c' & Hfind & Htc & Htp & Hob & _).
  rewrite Htc, Htp in Hob.
  assert (Hrun' := Hrun). vm_compute in Hrun'.
  injection Hrun' as <- <-.
  vm_compute in Htc, Htp, Hob.
  eexists. eexists. exists c'.
  split; [exact Hrun|].
  repeat split; assumption.
Defined.

Lemma update_customer_totals_frame_witness :
  let s := Sample.two_entries in
  Collection.find_one (customer_with_id "nobody") (customers s) = None /\
  update_customer_totals "nobody" s = (inr tt, s).
Proof.
  intros s.
  assert (F : Collection.find_one (customer_with_id "nobody") (customers s)
              = None) by reflexivity.
  split; [exact F|].
  destruct (update_customer_totals_frame "nobody" s) as (_ & _ & _ & Hnone).
  exact (Hnone F).
Defined.
